(** * Receipt Extractor client: a shallow embedding and its verified properties

    The development embeds [examples/receipt_extractor_client.py] — the class
    [ReceiptExtractorClient] with its three entry points, the request
    pipeline [_send_request] and the schema validator [validate_schema] —
    and proves properties of the embedded functions.

    Layout.  Definitions: Python values and exceptions; a state-and-exception
    monad; the Python primitives the client uses; the schema validator; the
    outside world (file system, remote endpoint, log of issued requests); the
    client; the definitions that follow the specification; example values.
    Properties: the validator against the ordered constraints of the
    specification, acceptance, the request pipeline, the input normalizer. *)

From Stdlib Require Import ZArith Floats Ascii.
From stdpp Require Import gmap strings list fin_maps pretty.

Local Open Scope string_scope.
Local Open Scope Z_scope.

(** ** Python values

    The values [json.loads] / [response.json()] can return: [None], [bool],
    [int], [float], [str], [list] and [dict] with string keys. *)

#[warnings="-register-all"]
Inductive pyval : Type :=
| PNone
| PBool (b : bool)
| PInt (z : Z)
| PFloat (f : float)
| PStr (s : string)
| PList (l : list pyval)
| PDict (d : gmap string pyval).

Definition bytes : Type := list Byte.byte.

(** ** Exceptions

    The classes of the [requests] exception hierarchy that matter for the
    [except] clauses of [_send_request]. *)

Inductive requests_exception : Type :=
| Timeout                  (* requests.exceptions.Timeout *)
| ConnectTimeout           (* (ConnectionError, Timeout) *)
| ReadTimeout              (* (Timeout) *)
| ConnectionError          (* DNS failure, connection refused *)
| SSLError                 (* (ConnectionError): TLS failure *)
| TooManyRedirects
| RequestsJSONDecodeError. (* requests.exceptions.JSONDecodeError:
                              (InvalidJSONError, json.JSONDecodeError) *)

Inductive exn : Type :=
| ValueError (arg : pyval)            (* raise ValueError(arg) *)
| JSONDecodeError (msg : string)      (* json.JSONDecodeError, a ValueError *)
| RequestException (cls : requests_exception) (msg : string)
| FileNotFoundError (msg : string)
| IsADirectoryError (msg : string)    (* open() on a directory *)
| TypeError                           (* raised by the interpreter *)
| KeyError (key : string)
| AttributeError.

(** [isinstance(e, requests.exceptions.Timeout)] *)
Definition isinstance_Timeout (e : exn) : bool :=
  match e with
  | RequestException (Timeout | ConnectTimeout | ReadTimeout) _ => true
  | _ => false
  end.

(** [isinstance(e, requests.exceptions.RequestException)] *)
Definition isinstance_RequestException (e : exn) : bool :=
  match e with
  | RequestException _ _ => true
  | _ => false
  end.

(** [isinstance(e, ValueError)] *)
Definition isinstance_ValueError (e : exn) : bool :=
  match e with
  | ValueError _ | JSONDecodeError _
  | RequestException RequestsJSONDecodeError _ => true
  | _ => false
  end.

(** [str(e)] for the library exceptions, which carry their message. *)
Definition exn_str (e : exn) : string :=
  match e with
  | JSONDecodeError msg | RequestException _ msg
  | FileNotFoundError msg | IsADirectoryError msg => msg
  | KeyError k => "'" +:+ k +:+ "'"
  | _ => ""
  end.

(** ** Outcomes and the state-and-exception monad

    A Python call either returns a value or raises; either way the mutations
    it made before stay.  [M S A] is a computation over a mutable state [S]. *)

Inductive outcome (A : Type) : Type :=
| Return (a : A)
| Raise (e : exn).
Arguments Return {A} a.
Arguments Raise {A} e.

Definition M (S A : Type) : Type := S → outcome A * S.

Definition run {S A} (m : M S A) (s : S) : outcome A * S := m s.
Definition result {S A} (m : M S A) (s : S) : outcome A := (m s).1.
Definition final {S A} (m : M S A) (s : S) : S := (m s).2.

#[global] Instance M_ret {S} : MRet (M S) := λ A a s, (Return a, s).
#[global] Instance M_bind {S} : MBind (M S) := λ A B f m s,
  match m s with
  | (Return a, s') => f a s'
  | (Raise e, s') => (Raise e, s')
  end.

Definition raise {S A} (e : exn) : M S A := λ s, (Raise e, s).
Definition lift {S A} (o : outcome A) : M S A := λ s, (o, s).
Definition load {S} : M S S := λ s, (Return s, s).
Definition modify {S} (f : S → S) : M S unit := λ s, (Return tt, f s).

(** [try: body  except ...: handler].  [handler e = None] when no [except]
    clause matches [e], which then propagates. *)
Definition try_except {S A} (body : M S A) (handler : exn → option (M S A)) : M S A :=
  λ s, match body s with
       | (Return a, s') => (Return a, s')
       | (Raise e, s') =>
           match handler e with
           | Some h => h s'
           | None => (Raise e, s')
           end
       end.

(** [for x in l: body x] *)
Fixpoint for_each {S A} (l : list A) (body : A → M S unit) : M S unit :=
  match l with
  | [] => mret tt
  | x :: l' => body x ;; for_each l' body
  end.

(** [enumerate(l)] *)
Definition enumerate {A} (l : list A) : list (nat * A) := imap pair l.

(** ** Python primitives *)

Definition isinstance_list (v : pyval) : bool :=
  match v with PList _ => true | _ => false end.
Definition isinstance_dict (v : pyval) : bool :=
  match v with PDict _ => true | _ => false end.
Definition isinstance_str (v : pyval) : bool :=
  match v with PStr _ => true | _ => false end.
(** [isinstance(v, int)]: [bool] is a subclass of [int]. *)
Definition isinstance_int (v : pyval) : bool :=
  match v with PInt _ | PBool _ => true | _ => false end.
(** [isinstance(v, (int, float))] *)
Definition isinstance_int_float (v : pyval) : bool :=
  match v with PInt _ | PBool _ | PFloat _ => true | _ => false end.

(** [sub in s] on strings. *)
Fixpoint str_contains (sub s : string) : bool :=
  String.prefix sub s ||
  match s with
  | EmptyString => false
  | String _ s' => str_contains sub s'
  end.

(** [key in d] on a dict. *)
Definition has_key {V} (d : gmap string V) (key : string) : bool :=
  match d !! key with Some _ => true | None => false end.

(** [key in container] for a string [key]: key membership on a dict, element
    membership on a list (only a [str] equals a [str]), substring on a
    string; the other values are not containers. *)
Definition py_in (key : string) (container : pyval) : outcome bool :=
  match container with
  | PDict d => Return (has_key d key)
  | PList l => Return (existsb (λ x, match x with PStr s => String.eqb s key | _ => false end) l)
  | PStr s => Return (str_contains key s)
  | _ => Raise TypeError
  end.

(** [container[key]] for a string [key]. *)
Definition py_getitem (container : pyval) (key : string) : outcome pyval :=
  match container with
  | PDict d => match d !! key with Some v => Return v | None => Raise (KeyError key) end
  | _ => Raise TypeError
  end.

(** [obj.get(key, dflt)]: only a dict has the method. *)
Definition py_get (obj : pyval) (key : string) (dflt : pyval) : outcome pyval :=
  match obj with
  | PDict d => Return (default dflt (d !! key))
  | _ => Raise AttributeError
  end.

(** [s.lower()] on ASCII text: the letters A-Z are lowered and every other
    byte is kept.  Python also lowers letters outside ASCII; none of them
    lowers to an extension of the table, so the lookup in [content_type_map]
    is the same, and only the extension quoted in the unsupported-format
    message can differ for such a name. *)
Definition ascii_lower (c : ascii) : ascii :=
  let n := nat_of_ascii c in
  if (65 <=? n)%nat && (n <=? 90)%nat then ascii_of_nat (n + 32) else c.

Fixpoint str_lower (s : string) : string :=
  match s with
  | EmptyString => EmptyString
  | String c s' => String (ascii_lower c) (str_lower s')
  end.

(** ** The schema validator *)

Definition required_fields : list string :=
  ["merchant_name"; "datetime"; "items"; "sub_total"; "vat"; "service_charge"; "total"].

Definition numeric_fields : list string :=
  ["sub_total"; "vat"; "service_charge"; "total"].

Definition raise_ValueError {S A} (msg : string) : M S A :=
  raise (ValueError (PStr msg)).

(** The body of the loop over [enumerate(data['items'])]. *)
Definition check_item {S} (i : nat) (item : pyval) : M S unit :=
  if negb (isinstance_dict item) then
    raise_ValueError ("Item at index " +:+ pretty i +:+ " is not a dictionary")
  else
  has_name ← lift (py_in "name" item);
  if negb has_name then
    raise_ValueError ("Item at index " +:+ pretty i +:+ " is missing 'name' field")
  else
  has_price ← lift (py_in "price" item);
  if negb has_price then
    raise_ValueError ("Item at index " +:+ pretty i +:+ " is missing 'price' field")
  else
  has_count ← lift (py_in "count" item);
  if negb has_count then
    raise_ValueError ("Item at index " +:+ pretty i +:+ " is missing 'count' field")
  else
  name ← lift (py_getitem item "name");
  if negb (isinstance_str name) then
    raise_ValueError ("Item at index " +:+ pretty i +:+ " has 'name' that is not a string")
  else
  price ← lift (py_getitem item "price");
  if negb (isinstance_int_float price) then
    raise_ValueError ("Item at index " +:+ pretty i +:+ " has 'price' that is not a number")
  else
  count ← lift (py_getitem item "count");
  if negb (isinstance_int count) then
    raise_ValueError ("Item at index " +:+ pretty i +:+ " has 'count' that is not an integer")
  else mret tt.

(** [validate_schema(self, data)].  The state is the object [data] refers to;
    [self] is not used by the method. *)
Definition validate_schema : M pyval bool :=
  data ← load;
  for_each required_fields (λ field,
    present ← lift (py_in field data);
    if negb present then raise_ValueError ("Missing required field: " +:+ field)
    else mret tt) ;;
  items ← lift (py_getitem data "items");
  match items with
  | PList l =>
      for_each (enumerate l) (λ '(i, item), check_item i item) ;;
      for_each numeric_fields (λ field,
        v ← lift (py_getitem data field);
        if negb (isinstance_int_float v) then
          raise_ValueError ("The '" +:+ field +:+ "' field must be a number")
        else mret tt) ;;
      merchant_name ← lift (py_getitem data "merchant_name");
      if negb (isinstance_str merchant_name) then
        raise_ValueError "The 'merchant_name' field must be a string"
      else
      datetime ← lift (py_getitem data "datetime");
      if negb (isinstance_str datetime) then
        raise_ValueError "The 'datetime' field must be a string"
      else mret true
  | _ => raise_ValueError "The 'items' field must be a list"
  end.

(** ** The outside world *)

(** One part of a multipart upload: the tuple [(filename, data, content_type)]. *)
Record file_part : Type := FilePart {
  part_filename : string;
  part_data : bytes;
  part_content_type : string
}.

(** The arguments of one [requests.post] call. *)
Record Request : Type := MkRequest {
  req_url : string;
  req_data : option bytes;
  req_files : option (list (string * file_part));
  req_headers : gmap string string;
  req_timeout : Z
}.

(** What [response.json()] raises on a body that is not JSON depends on the
    installed [requests]: [json.JSONDecodeError] before 2.27, and from 2.27 on
    [requests.exceptions.JSONDecodeError], which also is a
    [RequestException]. *)
Inductive json_decode_error : Type :=
| StdlibDecodeError (msg : string)
| RequestsDecodeError (msg : string).

Definition exn_of_decode_error (e : json_decode_error) : exn :=
  match e with
  | StdlibDecodeError msg => JSONDecodeError msg
  | RequestsDecodeError msg => RequestException RequestsJSONDecodeError msg
  end.

(** A [requests.Response]: [body_json] is the parse of [text], or the error
    the parse raises. *)
Record Response : Type := MkResponse {
  status_code : Z;
  text : string;
  body_json : json_decode_error + pyval
}.

(** [response.ok]: [raise_for_status()] raises exactly for 400 <= status < 600. *)
Definition ok (r : Response) : bool :=
  negb ((400 <=? status_code r) && (status_code r <? 600)).

(** [response.json()] *)
Definition json (r : Response) : outcome pyval :=
  match body_json r with
  | inl e => Raise (exn_of_decode_error e)
  | inr v => Return v
  end.

Inductive fs_node : Type :=
| RegularFile (content : bytes)
| Directory.

(** The file system, the remote endpoint (what a [requests.post] does: return
    a response or raise) and the requests issued so far. *)
Record World : Type := MkWorld {
  fs : gmap string fs_node;
  endpoint : Request → outcome Response;
  sent : list Request
}.

(** [requests.post(url, data=, files=, headers=, timeout=)] *)
Definition requests_post (rq : Request) : M World Response :=
  λ w, (endpoint w rq, MkWorld (fs w) (endpoint w) (sent w ++ [rq])).

(** A [pathlib.Path]: its string form and the [name] and [suffix] attributes
    pathlib computes from it. *)
Record Path : Type := MkPath {
  path_str : string;
  name : string;
  suffix : string
}.

(** [image_path.exists()] *)
Definition exists_ (p : Path) : M World bool :=
  λ w, (Return (has_key (fs w) (path_str p)), w).

(** [with open(image_path, 'rb') as f: image_data = f.read()] *)
Definition read_file (p : Path) : M World bytes :=
  λ w, match fs w !! path_str p with
       | Some (RegularFile content) => (Return content, w)
       | Some Directory =>
           (Raise (IsADirectoryError
                     ("[Errno 21] Is a directory: '" +:+ path_str p +:+ "'")), w)
       | None =>
           (Raise (FileNotFoundError
                     ("[Errno 2] No such file or directory: '" +:+ path_str p +:+ "'")),
            w)
       end.

(** ** The client *)

Record ReceiptExtractorClient : Type := MkClient {
  api_url : string;
  api_key : string;
  timeout : Z
}.

(** [__init__] *)
Definition init (api_url api_key : string) (timeout : Z) : outcome ReceiptExtractorClient :=
  if String.eqb api_key "" then
    Raise (ValueError (PStr "API key is required for authentication"))
  else Return (MkClient api_url api_key timeout).

(** Lines 155-161 of [_send_request]: default the headers to an empty dict
    and add the API key if not already in them.  The source updates the dict
    in place; the function returns the updated map. *)
Definition prepare_headers (self : ReceiptExtractorClient)
    (headers : option (gmap string string)) : gmap string string :=
  let headers := default ∅ headers in
  if negb (has_key headers "X-API-Key") && negb (has_key headers "Authorization")
  then <["X-API-Key" := api_key self]> headers
  else headers.

Definition _send_request (self : ReceiptExtractorClient) (data : option bytes)
    (files : option (list (string * file_part)))
    (headers : option (gmap string string)) : M World pyval :=
  let headers := prepare_headers self headers in
  try_except
    (response ← requests_post (MkRequest (api_url self) data files headers (timeout self));
     if negb (ok response) then
       error_message ←
         try_except
           (error_data ← lift (json response);
            lift (py_get error_data "error"
                    (PStr ("API error: " +:+ pretty (status_code response)))))
           (λ e, if isinstance_ValueError e then
                   Some (mret (PStr ("API error: " +:+ pretty (status_code response)
                                       +:+ " " +:+ text response)))
                 else None);
       raise (ValueError error_message)
     else lift (json response))
    (λ e, if isinstance_Timeout e then
            Some (raise_ValueError
                    ("Request timed out after " +:+ pretty (timeout self) +:+ " seconds"))
          else if isinstance_RequestException e then
            Some (raise_ValueError ("Network error: " +:+ exn_str e))
          else None).

Definition content_type_map : gmap string string :=
  list_to_map
    [(".jpg", "image/jpeg"); (".jpeg", "image/jpeg"); (".png", "image/png");
     (".gif", "image/gif"); (".bmp", "image/bmp"); (".webp", "image/webp");
     (".heic", "image/heic")].

(** [process_receipt_file], from the [Path] object on (a [str] argument is
    first turned into one by pathlib). *)
Definition process_receipt_file (self : ReceiptExtractorClient) (image_path : Path)
    : M World pyval :=
  found ← exists_ image_path;
  if negb found then
    raise (FileNotFoundError ("Image file not found: " +:+ path_str image_path))
  else
  let extension := str_lower (suffix image_path) in
  match content_type_map !! extension with
  | None | Some "" => raise_ValueError ("Unsupported image format: " +:+ extension)
  | Some content_type =>
      image_data ← read_file image_path;
      let files := [("image", FilePart (name image_path) image_data content_type)] in
      _send_request self None (Some files) None
  end.

Definition process_receipt_bytes (self : ReceiptExtractorClient) (image_data : bytes)
    (content_type : string) : M World pyval :=
  if negb (String.prefix "image/" content_type) then
    raise_ValueError ("Unsupported content type: " +:+ content_type)
  else
  let headers := <["X-API-Key" := api_key self]> (<["Content-Type" := content_type]> ∅) in
  _send_request self (Some image_data) None (Some headers).

(** ** The URL entry point *)

(** The [requests.Response] of the GET that fetches the image: its status,
    what [response.headers.get('Content-Type')] finds, its body, and the
    [HTTPError] that [raise_for_status()] builds for an error status. *)
Record UrlResponse : Type := MkUrlResponse {
  url_status_code : Z;
  url_content_type : option string;
  url_content : bytes;
  url_http_error : exn
}.

(** [response.raise_for_status()]: raises exactly for 400 <= status < 600. *)
Definition raise_for_status (r : UrlResponse) : outcome unit :=
  if (400 <=? url_status_code r) && (url_status_code r <? 600)
  then Raise (url_http_error r)
  else Return tt.

(** [process_receipt_url].  [requests_get image_url timeout] is what
    [requests.get(image_url, timeout=self.timeout)] does: return a response
    or raise.  The log [sent] of the world records the POSTs to the API. *)
Definition process_receipt_url (requests_get : string → Z → outcome UrlResponse)
    (self : ReceiptExtractorClient) (image_url : string) : M World pyval :=
  response ← lift (requests_get image_url (timeout self));
  lift (raise_for_status response) ;;
  let content_type := default "" (url_content_type response) in
  if negb (String.prefix "image/" content_type) then
    raise_ValueError ("URL did not return an image (got " +:+ content_type +:+ ")")
  else process_receipt_bytes self (url_content response) content_type.

(** [observes P m]: the computation [m] leaves the state as it found it, and
    every value it returns satisfies [P]. *)
Definition observes {S A} (P : A → Prop) (m : M S A) : Prop :=
  ∀ s, (m s).2 = s ∧ match (m s).1 with Return a => P a | Raise _ => True end.

(** ** Specification-level definitions

    The definitions of this part follow the words of the specification, not
    the code; the theorems compare them with the code above. *)

(** A constraint of the schema on some input: whether it holds, what it is
    about (field names, item index) and the message reported when it is the
    first one violated. *)
Record constraint : Type := Constraint {
  holds : bool;
  about : list string;
  message : string
}.

(** The value under [key] of a record satisfies [P]. *)
Definition field_is (P : pyval → bool) (v : pyval) (key : string) : bool :=
  match v with
  | PDict d => match d !! key with Some x => P x | None => false end
  | _ => false
  end.

Definition spec_has_field (v : pyval) (key : string) : bool :=
  field_is (λ _, true) v key.

(** Check 1 of the specification: presence of the seven top-level fields. *)
Definition spec_presence_constraints (data : pyval) : list constraint :=
  map (λ field, Constraint (spec_has_field data field) [field]
                  ("Missing required field: " +:+ field))
      required_fields.

(** Check 2: [items] is a sequence. *)
Definition spec_items_constraint (data : pyval) : list constraint :=
  [Constraint (field_is isinstance_list data "items") ["items"]
     "The 'items' field must be a list"].

(** Check 3, for the item at index [i]: it is a structured record; it has
    [name], [price], [count]; [name] is a string, [price] is numeric, [count]
    is an integer. *)
Definition spec_item_constraints (i : nat) (item : pyval) : list constraint :=
  let at_i := "Item at index " +:+ pretty i in
  [Constraint (isinstance_dict item) [pretty i] (at_i +:+ " is not a dictionary");
   Constraint (spec_has_field item "name") [pretty i; "name"]
     (at_i +:+ " is missing 'name' field");
   Constraint (spec_has_field item "price") [pretty i; "price"]
     (at_i +:+ " is missing 'price' field");
   Constraint (spec_has_field item "count") [pretty i; "count"]
     (at_i +:+ " is missing 'count' field");
   Constraint (field_is isinstance_str item "name") [pretty i; "name"]
     (at_i +:+ " has 'name' that is not a string");
   Constraint (field_is isinstance_int_float item "price") [pretty i; "price"]
     (at_i +:+ " has 'price' that is not a number");
   Constraint (field_is isinstance_int item "count") [pretty i; "count"]
     (at_i +:+ " has 'count' that is not an integer")].

(** Check 3 for all items, in index order. *)
Definition spec_items_constraints (data : pyval) : list constraint :=
  match data with
  | PDict d =>
      match d !! "items" with
      | Some (PList l) => concat (imap spec_item_constraints l)
      | _ => []
      end
  | _ => []
  end.

(** Check 4: the four monetary top-level fields are numeric. *)
Definition spec_numeric_constraints (data : pyval) : list constraint :=
  map (λ field, Constraint (field_is isinstance_int_float data field) [field]
                  ("The '" +:+ field +:+ "' field must be a number"))
      numeric_fields.

(** Check 5: [merchant_name] and [datetime] are strings. *)
Definition spec_string_constraints (data : pyval) : list constraint :=
  [Constraint (field_is isinstance_str data "merchant_name") ["merchant_name"]
     "The 'merchant_name' field must be a string";
   Constraint (field_is isinstance_str data "datetime") ["datetime"]
     "The 'datetime' field must be a string"].

(** All checks, in the fixed order of the specification. *)
Definition spec_constraints (data : pyval) : list constraint :=
  spec_presence_constraints data ++ spec_items_constraint data
  ++ spec_items_constraints data ++ spec_numeric_constraints data
  ++ spec_string_constraints data.

(** First failure wins. *)
Definition spec_first_violation (cs : list constraint) : option constraint :=
  find (λ c, negb (holds c)) cs.

(** The validator of the specification: name the first violated constraint,
    or confirm the input. *)
Definition spec_validate (data : pyval) : outcome bool :=
  match spec_first_violation (spec_constraints data) with
  | Some c => Raise (ValueError (PStr (message c)))
  | None => Return true
  end.

(** The first of the seven required fields that the input lacks. *)
Definition spec_first_missing (data : pyval) : option string :=
  find (λ field, negb (spec_has_field data field)) required_fields.

(** A sequence of guards [if not holds: raise ValueError(message)]. *)
Definition guard_all {S} (cs : list constraint) : M S unit :=
  for_each cs (λ c, if negb (holds c) then raise_ValueError (message c) else mret tt).

(** An item that passes check 3. *)
Definition item_ok (item : pyval) : bool :=
  forallb holds (spec_item_constraints 0 item).

(** An input that passes every check. *)
Definition accepts (data : pyval) : bool :=
  forallb holds (spec_constraints data).

(** The declarative reading of "passes check 3": a record with a string
    [name], a [price] that passes [isinstance(_, (int, float))] and a [count]
    that passes [isinstance(_, int)]. *)
Definition item_shape (item : pyval) : Prop :=
  ∃ m n p c, item = PDict m ∧
    m !! "name" = Some n ∧ isinstance_str n = true ∧
    m !! "price" = Some p ∧ isinstance_int_float p = true ∧
    m !! "count" = Some c ∧ isinstance_int c = true.

(** The declarative reading of "passes every check". *)
Definition receipt_shape (d : gmap string pyval) : Prop :=
  ∃ mn dt l st va sc to,
    d !! "merchant_name" = Some mn ∧ isinstance_str mn = true ∧
    d !! "datetime" = Some dt ∧ isinstance_str dt = true ∧
    d !! "items" = Some (PList l) ∧ Forall item_shape l ∧
    d !! "sub_total" = Some st ∧ isinstance_int_float st = true ∧
    d !! "vat" = Some va ∧ isinstance_int_float va = true ∧
    d !! "service_charge" = Some sc ∧ isinstance_int_float sc = true ∧
    d !! "total" = Some to ∧ isinstance_int_float to = true.

(** The names a constraint is about all occur in its message. *)
Definition names_subject (c : constraint) : Prop :=
  Forall (λ n, str_contains n (message c) = true) (about c).

(** The receipt [d] whose [items] are [l], with the field [key] of the item
    at index [i] (the record [m]) set to [v]. *)
Definition with_item_field (d : gmap string pyval) (l : list pyval) (i : nat)
    (m : gmap string pyval) (key : string) (v : pyval) : pyval :=
  PDict (<["items" := PList (<[i := PDict (<[key := v]> m)]> l)]> d).

(** The data model of the specification: a number is an integer or a
    floating value; [LineItem] and [Receipt] have all their fields. *)
Inductive number : Type :=
| Integer (z : Z)
| Floating (f : float).

Record LineItem : Type := MkLineItem {
  item_name : string;
  item_price : number;
  item_count : Z
}.

Record Receipt : Type := MkReceipt {
  receipt_merchant_name : string;
  receipt_datetime : string;
  receipt_items : list LineItem;
  receipt_sub_total : number;
  receipt_vat : number;
  receipt_service_charge : number;
  receipt_total : number
}.

(** The structure obtained by serialising a receipt to JSON and parsing the
    text again: JSON keeps integers, floating values, strings, arrays and
    objects apart, so every field comes back with the type it had. *)
Definition number_to_json (n : number) : pyval :=
  match n with
  | Integer z => PInt z
  | Floating f => PFloat f
  end.

Definition LineItem_to_json (it : LineItem) : pyval :=
  PDict (<["name" := PStr (item_name it)]>
         (<["price" := number_to_json (item_price it)]>
          (<["count" := PInt (item_count it)]> ∅))).

Definition Receipt_to_json (r : Receipt) : pyval :=
  PDict (<["merchant_name" := PStr (receipt_merchant_name r)]>
         (<["datetime" := PStr (receipt_datetime r)]>
          (<["items" := PList (LineItem_to_json <$> receipt_items r)]>
           (<["sub_total" := number_to_json (receipt_sub_total r)]>
            (<["vat" := number_to_json (receipt_vat r)]>
             (<["service_charge" := number_to_json (receipt_service_charge r)]>
              (<["total" := number_to_json (receipt_total r)]> ∅))))))).

(** ** Example values *)

Definition example_item : gmap string pyval :=
  <["name" := PStr "Green tea"]>
    (<["price" := PFloat 45.5%float]> (<["count" := PInt 3]> ∅)).

Definition example_receipt : gmap string pyval :=
  <["merchant_name" := PStr "Cafe Nine"]>
    (<["datetime" := PStr "2024-05-01T12:30:00"]>
      (<["items" := PList [PDict example_item]]>
        (<["sub_total" := PFloat 136.5%float]>
          (<["vat" := PFloat 9.5%float]>
            (<["service_charge" := PInt 0]>
              (<["total" := PFloat 146%float]> ∅)))))).

Definition example_client : ReceiptExtractorClient :=
  MkClient "https://receipts.example.com/extract" "secret-key" 30.

(** A world whose endpoint answers every request with [reply]; it holds one
    image file and one directory. *)
Definition example_world (reply : outcome Response) : World :=
  MkWorld (<["/tmp/receipt.PNG" := RegularFile []]> (<["/tmp/scans.png" := Directory]> ∅))
          (λ _, reply) [].

(** The request [_send_request] issues. *)
Definition request_of (self : ReceiptExtractorClient) (data : option bytes)
    (files : option (list (string * file_part)))
    (headers : option (gmap string string)) : Request :=
  MkRequest (api_url self) data files (prepare_headers self headers) (timeout self).

(** The world after one more request was issued. *)
Definition after_request (w : World) (rq : Request) : World :=
  MkWorld (fs w) (endpoint w) (sent w ++ [rq]).

(** The body text [{"error":"bad image"}] and the response carrying it. *)
Definition bad_image_text : string :=
  let q := String (ascii_of_nat 34) EmptyString in
  "{" +:+ q +:+ "error" +:+ q +:+ ":" +:+ q +:+ "bad image" +:+ q +:+ "}".

Definition bad_image_response : Response :=
  MkResponse 500 bad_image_text (inr (PDict {["error" := PStr "bad image"]})).

(** A success status with a body that is not JSON, under [requests] 2.27 or
    later. *)
Definition not_json_response : Response :=
  MkResponse 200 "<html>starting</html>"
    (inl (RequestsDecodeError "Expecting value: line 1 column 1 (char 0)")).

(** * Properties *)

(** ** Reasoning about computations *)

Lemma run_bind {S A B} (m : M S A) (f : A → M S B) (s : S) :
  (m ≫= f) s = match m s with
               | (Return a, s') => f a s'
               | (Raise e, s') => (Raise e, s')
               end.
Proof. reflexivity. Qed.

Section observes.
Context {S : Type}.

Lemma observes_ret {A} (P : A → Prop) (a : A) : P a → observes (S:=S) P (mret a).
Proof. intros HP s. by split. Qed.

Lemma observes_raise {A} (P : A → Prop) (e : exn) : observes (S:=S) P (raise e).
Proof. intros s. by split. Qed.

Lemma observes_raise_ValueError {A} (P : A → Prop) (msg : string) :
  observes (S:=S) P (raise_ValueError msg).
Proof. apply observes_raise. Qed.

Lemma observes_lift {A} (o : outcome A) : observes (S:=S) (λ _, True) (lift o).
Proof. intros s. split; [done | by destruct o]. Qed.

Lemma observes_load : observes (S:=S) (λ _, True) load.
Proof. intros s. by split. Qed.

Lemma observes_bind {A B} (Q : A → Prop) (P : B → Prop) (m : M S A) (f : A → M S B) :
  observes Q m → (∀ a, Q a → observes P (f a)) → observes P (m ≫= f).
Proof.
  intros Hm Hf s. rewrite run_bind.
  destruct (Hm s) as [Hs Ha]. destruct (m s) as [[a|e] s']; simpl in *; subst s'.
  - by apply Hf.
  - by split.
Qed.

Lemma observes_for_each {A} (l : list A) (body : A → M S unit) :
  (∀ x, observes (λ _, True) (body x)) → observes (λ _, True) (for_each l body).
Proof.
  intros Hbody. induction l as [|x l IH]; simpl.
  - by apply observes_ret.
  - eapply observes_bind; [apply Hbody | intros _ _; apply IH].
Qed.
End observes.

(** One step of a syntax-directed proof of [observes]. *)
Ltac observes_step :=
  lazymatch goal with
  | |- observes _ (mret _) => by apply observes_ret
  | |- observes _ (raise_ValueError _) => apply observes_raise_ValueError
  | |- observes _ (raise _) => apply observes_raise
  | |- observes _ (for_each _ _) => apply observes_for_each; intros ?
  | |- observes _ (lift _ ≫= _) =>
      eapply observes_bind; [apply observes_lift | intros ? _]
  | |- observes _ (load ≫= _) =>
      eapply observes_bind; [apply observes_load | intros ? _]
  | |- observes _ (_ ≫= _) =>
      eapply (observes_bind (λ _, True)); [ | intros ? _]
  | |- observes _ (if ?b then _ else _) => destruct b
  | |- observes _ (match ?v with PList _ => _ | _ => _ end) => destruct v
  | |- observes _ (let '(_, _) := ?p in _) => destruct p
  end.

Lemma check_item_observes {S} (i : nat) (item : pyval) :
  observes (S:=S) (λ _, True) (check_item i item).
Proof. unfold check_item. repeat observes_step. Qed.

Lemma validate_schema_observes : observes (λ b, b = true) validate_schema.
Proof.
  unfold validate_schema. repeat observes_step; apply check_item_observes.
Qed.


(** ** The validator against the ordered constraints of the specification *)

Lemma first_violation_app (a b : list constraint) :
  spec_first_violation (a ++ b) =
  match spec_first_violation a with
  | Some c => Some c
  | None => spec_first_violation b
  end.
Proof.
  unfold spec_first_violation. induction a as [|c a IH]; simpl; [done|].
  by destruct (negb (holds c)).
Qed.

Lemma first_violation_None (cs : list constraint) :
  spec_first_violation cs = None ↔ forallb holds cs = true.
Proof.
  unfold spec_first_violation. induction cs as [|c cs IH]; simpl; [done|].
  destruct (holds c); simpl; [done | split; discriminate].
Qed.

Lemma guard_all_run {S} (cs : list constraint) (s : S) :
  guard_all cs s =
  (match spec_first_violation cs with
   | Some c => Raise (ValueError (PStr (message c)))
   | None => Return tt
   end, s).
Proof.
  unfold guard_all, spec_first_violation.
  induction cs as [|c cs IH]; simpl; [done|].
  rewrite run_bind. destruct (holds c); simpl; [apply IH | done].
Qed.

Lemma guard_all_app {S} (a b : list constraint) (s : S) :
  guard_all (a ++ b) s = (guard_all a ;; guard_all b) s.
Proof.
  rewrite run_bind, !guard_all_run, first_violation_app.
  by destruct (spec_first_violation a).
Qed.

Lemma check_item_guard {S} (i : nat) (item : pyval) (s : S) :
  check_item i item s = guard_all (spec_item_constraints i item) s.
Proof.
  destruct item as [| | | | |l|d]; try reflexivity.
  unfold check_item, guard_all, spec_item_constraints, py_in, py_getitem,
    has_key, spec_has_field, field_is.
  destruct (d !! "name") as [n|]; [|reflexivity].
  destruct (d !! "price") as [p|]; [|reflexivity].
  destruct (d !! "count") as [c|]; [|reflexivity].
  destruct n; try reflexivity; destruct p; try reflexivity;
    destruct c; reflexivity.
Qed.

Lemma item_loop_guard {S} (g : nat → nat) (l : list pyval) (s : S) :
  for_each (imap (λ i x, (g i, x)) l) (λ '(i, item), check_item i item) s =
  guard_all (concat (imap (λ i, spec_item_constraints (g i)) l)) s.
Proof.
  revert g s. induction l as [|x l IH]; intros g s; [done|].
  rewrite !imap_cons, concat_cons, guard_all_app.
  change (for_each (?a :: ?b) ?f) with (f a ;; for_each b f).
  rewrite !run_bind. cbv beta iota. rewrite check_item_guard.
  destruct (guard_all _ s) as [[[]|e] s']; [|done].
  apply (IH (g ∘ Datatypes.S)).
Qed.

Lemma enumerate_loop_guard {S} (l : list pyval) (s : S) :
  for_each (enumerate l) (λ '(i, item), check_item i item) s =
  guard_all (concat (imap spec_item_constraints l)) s.
Proof. apply (item_loop_guard id). Qed.

Lemma presence_loop_guard {S} (d : gmap string pyval) (s : S) :
  for_each required_fields (λ field,
    present ← lift (py_in field (PDict d));
    if negb present then raise_ValueError ("Missing required field: " +:+ field)
    else mret tt) s
  = guard_all (spec_presence_constraints (PDict d)) s.
Proof. reflexivity. Qed.

Lemma presence_all (d : gmap string pyval) :
  spec_first_violation (spec_presence_constraints (PDict d)) = None →
  ∃ mn dt it st va sc to,
    d !! "merchant_name" = Some mn ∧ d !! "datetime" = Some dt ∧
    d !! "items" = Some it ∧ d !! "sub_total" = Some st ∧ d !! "vat" = Some va ∧
    d !! "service_charge" = Some sc ∧ d !! "total" = Some to.
Proof.
  rewrite first_violation_None.
  unfold spec_presence_constraints, spec_has_field, field_is; simpl.
  destruct (d !! "merchant_name") as [mn|]; [|done].
  destruct (d !! "datetime") as [dt|]; [|done].
  destruct (d !! "items") as [it|]; [|done].
  destruct (d !! "sub_total") as [st|]; [|done].
  destruct (d !! "vat") as [va|]; [|done].
  destruct (d !! "service_charge") as [sc|]; [|done].
  destruct (d !! "total") as [to|]; [|done].
  intros _. by exists mn, dt, it, st, va, sc, to.
Qed.

Lemma validate_schema_run (d : gmap string pyval) :
  run validate_schema (PDict d) = (spec_validate (PDict d), PDict d).
Proof.
  unfold run, validate_schema, spec_validate, spec_constraints.
  rewrite run_bind. unfold load at 1.
  rewrite run_bind, presence_loop_guard, guard_all_run, first_violation_app.
  destruct (spec_first_violation (spec_presence_constraints _)) as [c|] eqn:Hpres;
    [done|].
  destruct (presence_all d Hpres) as (mn & dt & it & st & va & sc & to
    & Hmn & Hdt & Hit & Hst & Hva & Hsc & Hto).
  rewrite first_violation_app.
  unfold spec_items_constraint, spec_items_constraints, field_is.
  rewrite run_bind. unfold py_getitem at 1, lift at 1. rewrite Hit.
  destruct it as [| | | | |l|m]; try reflexivity.
  rewrite run_bind, enumerate_loop_guard, guard_all_run.
  change (spec_first_violation [_]) with (@None constraint).
  rewrite first_violation_app.
  destruct (spec_first_violation (concat _)) as [c|]; [done|].
  unfold spec_numeric_constraints, spec_string_constraints, field_is,
    py_getitem, numeric_fields, for_each, map, lift, spec_first_violation.
  rewrite Hmn, Hdt, Hst, Hva, Hsc, Hto.
  destruct st; try reflexivity; destruct va; try reflexivity;
    destruct sc; try reflexivity; destruct to; try reflexivity;
    destruct mn; try reflexivity; destruct dt; reflexivity.
Qed.

Lemma validate_schema_result (d : gmap string pyval) :
  result validate_schema (PDict d) = spec_validate (PDict d).
Proof.
  pose proof (validate_schema_run d) as Hrun.
  unfold run in Hrun. unfold result. by rewrite Hrun.
Qed.

Lemma first_violation_map {A} (F : A → constraint) (l : list A) :
  spec_first_violation (map F l) = F <$> find (λ x, negb (holds (F x))) l.
Proof.
  unfold spec_first_violation. induction l as [|x l IH]; simpl; [done|].
  by destruct (negb (holds (F x))).
Qed.

Lemma validate_schema_first_missing (d : gmap string pyval) (field : string) :
  spec_first_missing (PDict d) = Some field →
  result validate_schema (PDict d) =
    Raise (ValueError (PStr ("Missing required field: " +:+ field))).
Proof.
  intros Hmiss. rewrite validate_schema_result.
  unfold spec_validate, spec_constraints. rewrite first_violation_app.
  unfold spec_presence_constraints. rewrite first_violation_map.
  change (find _ required_fields) with (spec_first_missing (PDict d)).
  by rewrite Hmiss.
Qed.

(** *** Messages name what they are about *)

Lemma prefix_nil (s : string) : String.prefix "" s = true.
Proof. by destruct s. Qed.

Lemma prefix_app (sub a b : string) :
  String.prefix sub a = true → String.prefix sub (a +:+ b) = true.
Proof.
  revert a. induction sub as [|c sub IH]; intros a; [intros _; apply prefix_nil|].
  destruct a as [|c' a]; simpl; [done|].
  destruct (Ascii.ascii_dec c c'); [apply IH | done].
Qed.

Lemma prefix_refl_app (sub b : string) : String.prefix sub (sub +:+ b) = true.
Proof.
  induction sub as [|c sub IH]; simpl; [apply prefix_nil|].
  by destruct (Ascii.ascii_dec c c).
Qed.

Lemma str_contains_prefix (sub s : string) :
  String.prefix sub s = true → str_contains sub s = true.
Proof. intros H. destruct s; simpl in *; rewrite H; done. Qed.

Lemma str_contains_app_l (sub a b : string) :
  str_contains sub a = true → str_contains sub (a +:+ b) = true.
Proof.
  induction a as [|c a IH]; intros H.
  - apply str_contains_prefix. destruct sub; [apply prefix_nil | done].
  - change (String.prefix sub (String c a) || str_contains sub a = true) in H.
    change (String.prefix sub (String c a +:+ b) || str_contains sub (a +:+ b) = true).
    apply orb_true_iff in H as [H|H]; apply orb_true_iff.
    + left. by apply prefix_app.
    + right. by apply IH.
Qed.

Lemma str_contains_app_r (sub a b : string) :
  str_contains sub b = true → str_contains sub (a +:+ b) = true.
Proof.
  intros H. induction a as [|c a IH]; [done|].
  change (String.prefix sub (String c a +:+ b) || str_contains sub (a +:+ b) = true).
  apply orb_true_iff. by right.
Qed.

Lemma str_contains_refl (s : string) : str_contains s s = true.
Proof.
  apply str_contains_prefix. induction s as [|c s IH]; simpl; [done|].
  by destruct (Ascii.ascii_dec c c).
Qed.

Lemma item_constraints_name_subject (i : nat) (item : pyval) :
  Forall names_subject (spec_item_constraints i item).
Proof.
  unfold spec_item_constraints, names_subject.
  repeat apply Forall_cons_2; try apply Forall_nil_2; simpl about; simpl message;
    try (apply str_contains_app_l, str_contains_app_r, str_contains_refl);
    by apply str_contains_app_r.
Qed.

Lemma items_constraints_name_subject (g : nat → nat) (l : list pyval) :
  Forall names_subject (concat (imap (λ i, spec_item_constraints (g i)) l)).
Proof.
  revert g. induction l as [|x l IH]; intros g; [apply Forall_nil_2|].
  rewrite imap_cons, concat_cons. apply Forall_app_2.
  - apply item_constraints_name_subject.
  - apply (IH (g ∘ Datatypes.S)).
Qed.

Lemma constraints_name_subject (data : pyval) :
  Forall names_subject (spec_constraints data).
Proof.
  unfold spec_constraints. repeat apply Forall_app_2.
  - unfold spec_presence_constraints, names_subject.
    repeat apply Forall_cons_2; by try apply Forall_nil_2.
  - unfold spec_items_constraint, names_subject.
    repeat apply Forall_cons_2; by try apply Forall_nil_2.
  - unfold spec_items_constraints.
    destruct data as [| | | | |l|d]; try apply Forall_nil_2.
    destruct (d !! "items") as [[| | | | |l|m]|]; try apply Forall_nil_2.
    apply (items_constraints_name_subject id).
  - unfold spec_numeric_constraints, names_subject.
    repeat apply Forall_cons_2; by try apply Forall_nil_2.
  - unfold spec_string_constraints, names_subject.
    repeat apply Forall_cons_2; by try apply Forall_nil_2.
Qed.

(** C1 (amended to inputs that are JSON objects).  On every dict input
    [validate_schema] performs the checks of the specification in their fixed
    order — presence of the seven fields, [items] is a list, the items in
    index order, the four numeric fields, the two string fields — and fails
    with the message of the first violated constraint, which names the field
    (and item index) it is about; when a required field is missing, the error
    names the first missing one. *)
Theorem validate_schema_first_violation (d : gmap string pyval) :
  result validate_schema (PDict d) = spec_validate (PDict d)
  ∧ match spec_first_missing (PDict d) with
    | Some field =>
        result validate_schema (PDict d) =
          Raise (ValueError (PStr ("Missing required field: " +:+ field)))
    | None => True
    end
  ∧ Forall names_subject (spec_constraints (PDict d)).
Proof.
  split; [apply validate_schema_result|]. split.
  - destruct (spec_first_missing (PDict d)) as [field|] eqn:Hmiss; [|done].
    by apply validate_schema_first_missing.
  - apply constraints_name_subject.
Qed.

(** C1 as stated fails on an input that is not a JSON object: the number 5
    has none of the required fields, yet the membership test on it raises
    [TypeError] rather than the error naming [merchant_name]. *)
Lemma validate_schema_non_object_counterexample :
  spec_first_missing (PInt 5) = Some "merchant_name"
  ∧ result validate_schema (PInt 5) = Raise TypeError
  ∧ result validate_schema (PInt 5)
      ≠ Raise (ValueError (PStr "Missing required field: merchant_name")).
Proof. repeat split; [reflexivity..|discriminate]. Qed.

(** C10.  On every input [validate_schema] returns [True] or raises — it
    never returns [False] — and the object [data] refers to is the same after
    the call as before it. *)
Theorem validate_schema_true_or_raise (data : pyval) :
  (result validate_schema data = Return true
   ∨ ∃ e, result validate_schema data = Raise e)
  ∧ result validate_schema data ≠ Return false
  ∧ final validate_schema data = data.
Proof.
  destruct (validate_schema_observes data) as [Hstate Hret].
  unfold result, final. destruct (validate_schema data) as [[b|e] s]; simpl in *.
  - subst b. repeat split; [by left | discriminate | done].
  - repeat split; [right; by exists e | discriminate | done].
Qed.

Lemma items_forallb (g : nat → nat) (l : list pyval) :
  forallb holds (concat (imap (λ i, spec_item_constraints (g i)) l)) = forallb item_ok l.
Proof.
  revert g. induction l as [|x l IH]; intros g; [done|].
  rewrite imap_cons, concat_cons, forallb_app. simpl forallb at 3.
  f_equal. apply (IH (g ∘ Datatypes.S)).
Qed.

Lemma items_constraints_forallb (l : list pyval) :
  forallb holds (concat (imap spec_item_constraints l)) = forallb item_ok l.
Proof. apply (items_forallb id). Qed.

Lemma item_ok_shape (item : pyval) : item_ok item = true ↔ item_shape item.
Proof.
  unfold item_ok, item_shape, spec_item_constraints, spec_has_field, field_is.
  cbn [forallb holds]. split.
  - destruct item as [| | | | |l|m]; try done.
    destruct (m !! "name") as [n|] eqn:En; [|done].
    destruct (m !! "price") as [p|] eqn:Ep; [|done].
    destruct (m !! "count") as [c|] eqn:Ec; [|done].
    cbn [isinstance_dict andb]. rewrite !andb_true_iff.
    intros (Hn & Hp & Hc & _). by exists m, n, p, c.
  - intros (m & n & p & c & -> & -> & Hn & -> & Hp & -> & Hc).
    cbn [isinstance_dict andb]. by rewrite Hn, Hp, Hc.
Qed.

Lemma items_ok_shape (l : list pyval) :
  forallb item_ok l = true ↔ Forall item_shape l.
Proof.
  induction l as [|x l IH]; simpl.
  - split; [intros _; apply Forall_nil_2 | done].
  - rewrite andb_true_iff, Forall_cons, IH, item_ok_shape. done.
Qed.

Lemma accepts_shape (d : gmap string pyval) :
  accepts (PDict d) = true ↔ receipt_shape d.
Proof.
  unfold accepts, spec_constraints. rewrite !forallb_app.
  unfold spec_presence_constraints, spec_items_constraint, spec_items_constraints,
    spec_numeric_constraints, spec_string_constraints, spec_has_field, field_is,
    receipt_shape, required_fields, numeric_fields.
  cbn [forallb map holds]. split.
  - destruct (d !! "merchant_name") as [mn|]; [|done].
    destruct (d !! "datetime") as [dt|]; [|done].
    destruct (d !! "items") as [it|]; [|done].
    destruct (d !! "sub_total") as [st|]; [|done].
    destruct (d !! "vat") as [va|]; [|done].
    destruct (d !! "service_charge") as [sc|]; [|done].
    destruct (d !! "total") as [to|]; [|done].
    destruct it as [| | | | |l|m]; try done.
    cbn [andb isinstance_list]. rewrite items_constraints_forallb, !andb_true_iff, items_ok_shape.
    intros (Hl & (Hst & Hva & Hsc & Hto & _) & Hmn & Hdt & _).
    by exists mn, dt, l, st, va, sc, to.
  - intros (mn & dt & l & st & va & sc & to & -> & Hmn & -> & Hdt & -> & Hl
            & -> & Hst & -> & Hva & -> & Hsc & -> & Hto).
    cbn [andb isinstance_list].
    rewrite items_constraints_forallb, Hmn, Hdt, Hst, Hva, Hsc, Hto.
    apply items_ok_shape in Hl. by rewrite Hl.
Qed.

Lemma validate_schema_accepts (d : gmap string pyval) :
  result validate_schema (PDict d) = Return true ↔ receipt_shape d.
Proof.
  rewrite validate_schema_result, <- accepts_shape. unfold spec_validate, accepts.
  rewrite <- first_violation_None.
  by destruct (spec_first_violation _).
Qed.

(** ** Replacing one field of a well-formed receipt *)

Lemma item_shape_set_count (m : gmap string pyval) (v : pyval) :
  item_shape (PDict m) → isinstance_int v = true →
  item_shape (PDict (<["count" := v]> m)).
Proof.
  intros (m' & n & p & c & [= <-] & Hn & Hns & Hp & Hps & Hc & Hcs) Hv.
  exists (<["count" := v]> m), n, p, v.
  by rewrite lookup_insert_eq, !lookup_insert_ne.
Qed.

Lemma item_shape_set_price (m : gmap string pyval) (v : pyval) :
  item_shape (PDict m) → isinstance_int_float v = true →
  item_shape (PDict (<["price" := v]> m)).
Proof.
  intros (m' & n & p & c & [= <-] & Hn & Hns & Hp & Hps & Hc & Hcs) Hv.
  exists (<["price" := v]> m), n, v, c.
  by rewrite lookup_insert_eq, !lookup_insert_ne.
Qed.

Lemma receipt_shape_set_items (d : gmap string pyval) (l' : list pyval) :
  receipt_shape d → Forall item_shape l' →
  receipt_shape (<["items" := PList l']> d).
Proof.
  intros (mn & dt & l0 & st & va & sc & to & Hmn & Hmns & Hdt & Hdts & Hit & Hl
          & Hst & Hsts & Hva & Hvas & Hsc & Hscs & Hto & Htos) Hl'.
  exists mn, dt, l', st, va, sc, to.
  by rewrite lookup_insert_eq, !lookup_insert_ne.
Qed.

Lemma receipt_shape_item (d : gmap string pyval) (l : list pyval) (i : nat) (x : pyval) :
  receipt_shape d → d !! "items" = Some (PList l) → l !! i = Some x →
  Forall item_shape l ∧ item_shape x.
Proof.
  intros (mn & dt & l0 & st & va & sc & to & Hmn & Hmns & Hdt & Hdts & Hit & Hl
          & _) Hitems Hi.
  rewrite Hit in Hitems. injection Hitems as ->.
  split; [done|]. by eapply Forall_lookup_1.
Qed.

Lemma receipt_shape_set_numeric (d : gmap string pyval) (field : string) (v : pyval) :
  receipt_shape d → field ∈ numeric_fields → isinstance_int_float v = true →
  receipt_shape (<[field := v]> d).
Proof.
  intros (mn & dt & l & st & va & sc & to & Hmn & Hmns & Hdt & Hdts & Hit & Hl
          & Hst & Hsts & Hva & Hvas & Hsc & Hscs & Hto & Htos) Hfield Hv.
  unfold numeric_fields in Hfield.
  apply elem_of_cons in Hfield as [->|Hfield].
  { exists mn, dt, l, v, va, sc, to.
    by rewrite lookup_insert_eq, !lookup_insert_ne. }
  apply elem_of_cons in Hfield as [->|Hfield].
  { exists mn, dt, l, st, v, sc, to.
    by rewrite lookup_insert_eq, !lookup_insert_ne. }
  apply elem_of_cons in Hfield as [->|Hfield].
  { exists mn, dt, l, st, va, v, to.
    by rewrite lookup_insert_eq, !lookup_insert_ne. }
  apply elem_of_cons in Hfield as [->|Hfield]; [|by apply elem_of_nil in Hfield].
  exists mn, dt, l, st, va, sc, v.
  by rewrite lookup_insert_eq, !lookup_insert_ne.
Qed.

Lemma validate_schema_set_item_field (d : gmap string pyval) (l : list pyval)
    (i : nat) (m : gmap string pyval) (key : string) (v : pyval) :
  result validate_schema (PDict d) = Return true →
  d !! "items" = Some (PList l) → l !! i = Some (PDict m) →
  (item_shape (PDict m) → item_shape (PDict (<[key := v]> m))) →
  result validate_schema (with_item_field d l i m key v) = Return true.
Proof.
  intros Hd%validate_schema_accepts Hitems Hi Hset.
  destruct (receipt_shape_item d l i _ Hd Hitems Hi) as [Hl Hm].
  apply validate_schema_accepts, receipt_shape_set_items; [done|].
  apply Forall_insert; auto.
Qed.

(** ** The first violation inside the items *)

Lemma items_first_violation_at (l : list pyval) (i : nat) (x : pyval) (c : constraint) :
  l !! i = Some x → Forall item_shape (take i l) →
  spec_first_violation (spec_item_constraints i x) = Some c →
  spec_first_violation (concat (imap spec_item_constraints l)) = Some c.
Proof.
  intros Hi Hbefore Hc.
  rewrite <- (take_drop_middle l i x Hi).
  rewrite imap_app, concat_app, first_violation_app.
  replace (spec_first_violation (concat (imap spec_item_constraints (take i l))))
    with (@None constraint).
  2: { symmetry. apply first_violation_None.
       rewrite items_constraints_forallb. by apply items_ok_shape. }
  rewrite imap_cons, concat_cons, first_violation_app.
  rewrite length_take_le by (apply Nat.lt_le_incl; by eapply lookup_lt_Some).
  rewrite Nat.add_0_r. by rewrite Hc.
Qed.

Lemma validate_schema_item_violation (d : gmap string pyval) (l : list pyval)
    (c : constraint) :
  spec_first_missing (PDict d) = None → d !! "items" = Some (PList l) →
  spec_first_violation (concat (imap spec_item_constraints l)) = Some c →
  result validate_schema (PDict d) = Raise (ValueError (PStr (message c))).
Proof.
  intros Hmiss Hitems Hc. rewrite validate_schema_result.
  unfold spec_validate, spec_constraints. rewrite first_violation_app.
  unfold spec_presence_constraints. rewrite first_violation_map.
  change (find _ required_fields) with (spec_first_missing (PDict d)).
  rewrite Hmiss. simpl fmap. rewrite first_violation_app.
  unfold spec_items_constraint, spec_items_constraints, field_is.
  rewrite Hitems. simpl spec_first_violation at 1.
  rewrite first_violation_app. by rewrite Hc.
Qed.

Lemma set_items_none_missing (d : gmap string pyval) (l' : list pyval) :
  receipt_shape d → spec_first_missing (PDict (<["items" := PList l']> d)) = None.
Proof.
  intros (mn & dt & l & st & va & sc & to & Hmn & _ & Hdt & _ & Hit & _
          & Hst & _ & Hva & _ & Hsc & _ & Hto & _).
  unfold spec_first_missing, spec_has_field, field_is, required_fields, find.
  rewrite lookup_insert_eq, !lookup_insert_ne by done.
  by rewrite Hmn, Hdt, Hst, Hva, Hsc, Hto.
Qed.

Lemma float_count_violation (i : nat) (m : gmap string pyval) (f : float) :
  item_shape (PDict m) →
  spec_first_violation (spec_item_constraints i (PDict (<["count" := PFloat f]> m)))
  = Some (Constraint false [pretty i; "count"]
            (("Item at index " +:+ pretty i) +:+ " has 'count' that is not an integer")).
Proof.
  intros (m' & n & p & c & [= <-] & Hn & Hns & Hp & Hps & Hc & Hcs).
  unfold spec_item_constraints, spec_has_field, field_is.
  rewrite lookup_insert_eq, !lookup_insert_ne by done.
  rewrite Hn, Hp, Hns, Hps. reflexivity.
Qed.

(** C2.  In a receipt that is otherwise well-formed, an item whose [count] is
    a floating value is rejected as not an integer, whatever the value (so
    also the integral 3.0), while an [int] count is accepted. *)
Theorem validate_schema_count_strict (d : gmap string pyval) (l : list pyval)
    (i : nat) (m : gmap string pyval) :
  result validate_schema (PDict d) = Return true →
  d !! "items" = Some (PList l) → l !! i = Some (PDict m) →
  (∀ f : float,
     result validate_schema (with_item_field d l i m "count" (PFloat f))
     = Raise (ValueError (PStr ("Item at index " +:+ pretty i
                                  +:+ " has 'count' that is not an integer"))))
  ∧ (∀ z : Z,
       result validate_schema (with_item_field d l i m "count" (PInt z))
       = Return true).
Proof.
  intros Hd Hitems Hi. split.
  - intros f. pose proof Hd as Hshape%validate_schema_accepts.
    destruct (receipt_shape_item d l i _ Hshape Hitems Hi) as [Hl Hm].
    unfold with_item_field.
    rewrite (validate_schema_item_violation _ (<[i := PDict (<["count" := PFloat f]> m)]> l)
               (Constraint false [pretty i; "count"]
                  (("Item at index " +:+ pretty i)
                     +:+ " has 'count' that is not an integer"))).
    + reflexivity.
    + by apply set_items_none_missing.
    + apply lookup_insert_eq.
    + eapply items_first_violation_at.
      * apply list_lookup_insert_eq. by eapply lookup_lt_Some.
      * rewrite take_insert_ge by done. by apply Forall_take.
      * by apply float_count_violation.
  - intros z. apply validate_schema_set_item_field; [done..|].
    intros Hm. by apply item_shape_set_count.
Qed.

(** The receipt of the example with the count 3.0 and with the count 3. *)
Lemma validate_schema_count_strict_witness :
  result validate_schema (PDict example_receipt) = Return true
  ∧ result validate_schema
      (with_item_field example_receipt [PDict example_item] 0 example_item
         "count" (PFloat 3%float))
    = Raise (ValueError (PStr "Item at index 0 has 'count' that is not an integer"))
  ∧ result validate_schema
      (with_item_field example_receipt [PDict example_item] 0 example_item
         "count" (PInt 3))
    = Return true.
Proof.
  assert (result validate_schema (PDict example_receipt) = Return true) as Hd
    by (vm_compute; reflexivity).
  destruct (validate_schema_count_strict example_receipt [PDict example_item] 0
              example_item Hd) as [Hfloat Hint]; [reflexivity..|].
  split; [exact Hd|]. split; [apply (Hfloat 3%float) | apply (Hint 3)].
Defined.

(** C9.  Booleans pass the numeric checks: in an accepted receipt, a
    monetary top-level field, the [price] of an item or the [count] of an
    item can be replaced by [True] or [False] and the receipt is still
    accepted. *)
Theorem validate_schema_accepts_bool (d : gmap string pyval) (b : bool) :
  result validate_schema (PDict d) = Return true →
  (∀ field, field ∈ numeric_fields →
     result validate_schema (PDict (<[field := PBool b]> d)) = Return true)
  ∧ (∀ l i m, d !! "items" = Some (PList l) → l !! i = Some (PDict m) →
       result validate_schema (with_item_field d l i m "count" (PBool b)) = Return true
       ∧ result validate_schema (with_item_field d l i m "price" (PBool b)) = Return true).
Proof.
  intros Hd. split.
  - intros field Hfield. apply validate_schema_accepts.
    apply receipt_shape_set_numeric; [by apply validate_schema_accepts|done..].
  - intros l i m Hitems Hi. split.
    + apply validate_schema_set_item_field; [done..|].
      intros Hm. by apply item_shape_set_count.
    + apply validate_schema_set_item_field; [done..|].
      intros Hm. by apply item_shape_set_price.
Qed.

(** The receipt of the example with [True] as [vat], as the count and as
    the price of its item. *)
Lemma validate_schema_accepts_bool_witness :
  result validate_schema (PDict example_receipt) = Return true
  ∧ result validate_schema (PDict (<["vat" := PBool true]> example_receipt)) = Return true
  ∧ result validate_schema
      (with_item_field example_receipt [PDict example_item] 0 example_item
         "count" (PBool true))
    = Return true
  ∧ result validate_schema
      (with_item_field example_receipt [PDict example_item] 0 example_item
         "price" (PBool true))
    = Return true.
Proof.
  assert (result validate_schema (PDict example_receipt) = Return true) as Hd
    by (vm_compute; reflexivity).
  destruct (validate_schema_accepts_bool example_receipt true Hd) as [Htop Hitem].
  split; [exact Hd|]. split.
  - apply Htop. unfold numeric_fields. repeat constructor.
  - apply (Hitem [PDict example_item] 0%nat example_item); reflexivity.
Defined.

(** ** Receipts of the data model *)

Lemma LineItem_to_json_shape (it : LineItem) : item_shape (LineItem_to_json it).
Proof.
  unfold LineItem_to_json.
  eexists _, (PStr (item_name it)), (number_to_json (item_price it)),
    (PInt (item_count it)).
  split; [reflexivity|].
  rewrite lookup_insert_eq, !lookup_insert_ne, !lookup_insert_eq by done.
  rewrite !lookup_insert_ne, lookup_insert_eq by done.
  repeat split. by destruct (item_price it).
Qed.

Lemma Receipt_to_json_shape (r : Receipt) :
  ∃ d, Receipt_to_json r = PDict d ∧ receipt_shape d.
Proof.
  eexists. split; [reflexivity|].
  exists (PStr (receipt_merchant_name r)), (PStr (receipt_datetime r)),
    (LineItem_to_json <$> receipt_items r),
    (number_to_json (receipt_sub_total r)), (number_to_json (receipt_vat r)),
    (number_to_json (receipt_service_charge r)), (number_to_json (receipt_total r)).
  repeat split;
    try (by repeat (rewrite lookup_insert_ne by done); rewrite lookup_insert_eq).
  - apply Forall_fmap, Forall_forall. intros it _. apply LineItem_to_json_shape.
  - by destruct (receipt_sub_total r).
  - by destruct (receipt_vat r).
  - by destruct (receipt_service_charge r).
  - by destruct (receipt_total r).
Qed.

(** C8.  Round trip: the structure a well-formed receipt gives when it is
    serialised to JSON and parsed again is accepted by [validate_schema],
    which returns [True] and leaves it as it is; an empty [items] sequence
    is included. *)
Theorem validate_schema_round_trip (r : Receipt) :
  run validate_schema (Receipt_to_json r) = (Return true, Receipt_to_json r).
Proof.
  destruct (Receipt_to_json_shape r) as (d & -> & Hd).
  rewrite validate_schema_run. f_equal.
  rewrite <- validate_schema_result. by apply validate_schema_accepts.
Qed.

(** ** The request pipeline *)

(** [_send_request] issues exactly one request, whatever comes back. *)
Lemma _send_request_final (self : ReceiptExtractorClient) (data : option bytes)
    (files : option (list (string * file_part)))
    (headers : option (gmap string string)) (w : World) :
  final (_send_request self data files headers) w
  = after_request w (request_of self data files headers).
Proof.
  unfold final, _send_request, try_except, requests_post, after_request, request_of.
  rewrite run_bind.
  destruct (endpoint w _) as [r|e]; simpl.
  - destruct (ok r); simpl.
    + unfold lift. destruct (json r) as [v|e]; simpl; [done|].
      destruct (isinstance_Timeout e); [done|].
      by destruct (isinstance_RequestException e).
    + rewrite !run_bind. unfold lift at 1.
      destruct (json r) as [v|e]; simpl.
      * unfold lift. destruct (py_get v _ _) as [m|e]; simpl; [done|].
        destruct (isinstance_ValueError e); simpl; [done|].
        destruct (isinstance_Timeout e); [done|].
        by destruct (isinstance_RequestException e).
      * destruct (isinstance_ValueError e); simpl; [done|].
        destruct (isinstance_Timeout e); [done|].
        by destruct (isinstance_RequestException e).
  - destruct (isinstance_Timeout e); [done|].
    by destruct (isinstance_RequestException e).
Qed.

(** What [_send_request] does with a response that came back. *)
Lemma _send_request_response (self : ReceiptExtractorClient) (data : option bytes)
    (files : option (list (string * file_part)))
    (headers : option (gmap string string)) (w : World) (r : Response) :
  endpoint w (request_of self data files headers) = Return r →
  result (_send_request self data files headers) w =
  if ok r then
    match body_json r with
    | inr v => Return v
    | inl (StdlibDecodeError msg) => Raise (JSONDecodeError msg)
    | inl (RequestsDecodeError msg) =>
        Raise (ValueError (PStr ("Network error: " +:+ msg)))
    end
  else
    match body_json r with
    | inr (PDict d) =>
        Raise (ValueError
                 (default (PStr ("API error: " +:+ pretty (status_code r))) (d !! "error")))
    | inr _ => Raise AttributeError
    | inl _ =>
        Raise (ValueError (PStr ("API error: " +:+ pretty (status_code r)
                                   +:+ " " +:+ text r)))
    end.
Proof.
  intros Hr.
  unfold result, _send_request, try_except, requests_post. rewrite run_bind.
  fold (request_of self data files headers). rewrite Hr.
  unfold json. destruct (ok r); simpl.
  - unfold lift. by destruct (body_json r) as [[msg|msg]|v].
  - rewrite run_bind. unfold try_except, lift. rewrite run_bind.
    destruct (body_json r) as [[msg|msg]|v]; [done..|].
    by destruct v.
Qed.

(** C3 (the code departs from it).  A response with a success status whose
    body is not JSON: when [response.json()] raises [json.JSONDecodeError]
    the error leaves [_send_request] as it is, but when it raises
    [requests.exceptions.JSONDecodeError] — a [RequestException], what
    [requests] raises from version 2.27 on — the handler of line 187 catches
    it and the failure is reported as a network error. *)
Theorem _send_request_invalid_json_on_success (self : ReceiptExtractorClient)
    (data : option bytes) (files : option (list (string * file_part)))
    (headers : option (gmap string string)) (w : World) (r : Response)
    (msg : string) :
  endpoint w (request_of self data files headers) = Return r → ok r = true →
  (body_json r = inl (StdlibDecodeError msg) →
     result (_send_request self data files headers) w = Raise (JSONDecodeError msg))
  ∧ (body_json r = inl (RequestsDecodeError msg) →
       result (_send_request self data files headers) w
       = Raise (ValueError (PStr ("Network error: " +:+ msg)))).
Proof.
  intros Hr Hok.
  rewrite (_send_request_response self data files headers w r Hr), Hok.
  split; by intros ->.
Qed.

(** The failing input of C3: status 200, a body that is not JSON, [requests]
    2.27 or later.  The outcome is the one a refused connection with the
    same text gives. *)
Lemma _send_request_invalid_json_on_success_witness :
  ok not_json_response = true
  ∧ result (_send_request example_client (Some []) None None)
      (example_world (Return not_json_response))
    = Raise (ValueError (PStr "Network error: Expecting value: line 1 column 1 (char 0)"))
  ∧ result (_send_request example_client (Some []) None None)
      (example_world
         (Raise (RequestException ConnectionError
                   "Expecting value: line 1 column 1 (char 0)")))
    = Raise (ValueError (PStr "Network error: Expecting value: line 1 column 1 (char 0)")).
Proof.
  split; [reflexivity|]. split; [|reflexivity].
  destruct (_send_request_invalid_json_on_success example_client (Some []) None None
              (example_world (Return not_json_response)) not_json_response
              "Expecting value: line 1 column 1 (char 0)" eq_refl eq_refl)
    as [_ Hnew].
  by apply Hnew.
Defined.




(** A body that is JSON but not an object has no [get] method: the call
    fails with [AttributeError], which no handler of [_send_request] turns
    into a [ValueError]. *)
Lemma _send_request_error_status_non_object :
  result (_send_request example_client (Some []) None None)
    (example_world (Return (MkResponse 502 "[]" (inr (PList [])))))
  = Raise AttributeError.
Proof. reflexivity. Qed.

(** ** The input normalizer *)

Lemma content_type_map_nonempty (ext ct : string) :
  content_type_map !! ext = Some ct → ct ≠ "".
Proof.
  unfold content_type_map. intros Hct ->.
  apply elem_of_list_to_map_2 in Hct.
  repeat (apply elem_of_cons in Hct as [Heq|Hct]; [by inversion Heq|]).
  by apply elem_of_nil in Hct.
Qed.

(** C5.  [process_receipt_file]: a path that does not exist fails with
    [FileNotFoundError]; a path that exists and whose lower-cased extension
    is not in the extension-to-MIME table fails with the unsupported-format
    [ValueError]; and when the extension is in the table, the one request
    sent carries the file under the content type of the table entry.  In the
    two failures nothing is sent. *)
Theorem process_receipt_file_content_type (self : ReceiptExtractorClient)
    (image_path : Path) (w : World) :
  (fs w !! path_str image_path = None →
     run (process_receipt_file self image_path) w
     = (Raise (FileNotFoundError ("Image file not found: " +:+ path_str image_path)), w))
  ∧ (is_Some (fs w !! path_str image_path) →
     content_type_map !! str_lower (suffix image_path) = None →
     run (process_receipt_file self image_path) w
     = (Raise (ValueError (PStr ("Unsupported image format: "
                                   +:+ str_lower (suffix image_path)))), w))
  ∧ (∀ content ct,
       fs w !! path_str image_path = Some (RegularFile content) →
       content_type_map !! str_lower (suffix image_path) = Some ct →
       sent (final (process_receipt_file self image_path) w)
       = (sent w ++ [MkRequest (api_url self) None
                       (Some [("image", FilePart (name image_path) content ct)])
                       {["X-API-Key" := api_key self]} (timeout self)])%list).
Proof.
  unfold run, final, process_receipt_file, exists_, has_key. repeat split.
  - intros Hfs. rewrite run_bind, Hfs. reflexivity.
  - intros [node Hfs] Hct. rewrite run_bind, Hfs. simpl. by rewrite Hct.
  - intros content ct Hfs Hct. rewrite run_bind, Hfs. simpl. rewrite Hct.
    destruct ct as [|c ct]; [by apply content_type_map_nonempty in Hct|].
    rewrite run_bind. unfold read_file. rewrite Hfs.
    pose proof (_send_request_final self None
      (Some [("image", FilePart (name image_path) content (String c ct))]) None w) as Hsent.
    unfold final in Hsent. by rewrite Hsent.
Qed.

(** A missing path, a path with the extension [.tiff], and an upper-case
    [.PNG] file, which is sent as [image/png]. *)
Lemma process_receipt_file_content_type_witness :
  result (process_receipt_file example_client (MkPath "/tmp/missing.png" "missing.png" ".png"))
    (example_world (Return bad_image_response))
  = Raise (FileNotFoundError "Image file not found: /tmp/missing.png")
  ∧ result (process_receipt_file example_client (MkPath "/tmp/scans.png" "scans.png" ".tiff"))
      (example_world (Return bad_image_response))
    = Raise (ValueError (PStr "Unsupported image format: .tiff"))
  ∧ sent (final (process_receipt_file example_client
                   (MkPath "/tmp/receipt.PNG" "receipt.PNG" ".PNG"))
            (example_world (Return bad_image_response)))
    = [MkRequest "https://receipts.example.com/extract" None
         (Some [("image", FilePart "receipt.PNG" [] "image/png")])
         {["X-API-Key" := "secret-key"]} 30].
Proof.
  split; [|split].
  - destruct (process_receipt_file_content_type example_client
                (MkPath "/tmp/missing.png" "missing.png" ".png")
                (example_world (Return bad_image_response))) as (Hmissing & _ & _).
    unfold result. unfold run in Hmissing. by rewrite Hmissing.
  - destruct (process_receipt_file_content_type example_client
                (MkPath "/tmp/scans.png" "scans.png" ".tiff")
                (example_world (Return bad_image_response))) as (_ & Hformat & _).
    unfold result. unfold run in Hformat. rewrite Hformat; [done| |done].
    by exists Directory.
  - destruct (process_receipt_file_content_type example_client
                (MkPath "/tmp/receipt.PNG" "receipt.PNG" ".PNG")
                (example_world (Return bad_image_response))) as (_ & _ & Hsent).
    by apply (Hsent [] "image/png").
Defined.

(** C6.  [process_receipt_bytes]: a declared content type that does not
    start with [image/] fails with the unsupported-type [ValueError] and the
    world is as before, no request issued; a content type that starts with
    [image/] goes on to [_send_request], which issues the request with the
    bytes as its body and the declared type as [Content-Type]. *)
Theorem process_receipt_bytes_content_type (self : ReceiptExtractorClient)
    (image_data : bytes) (content_type : string) (w : World) :
  (String.prefix "image/" content_type = false →
     run (process_receipt_bytes self image_data content_type) w
     = (Raise (ValueError (PStr ("Unsupported content type: " +:+ content_type))), w))
  ∧ (String.prefix "image/" content_type = true →
     run (process_receipt_bytes self image_data content_type) w
     = run (_send_request self (Some image_data) None
              (Some (<["X-API-Key" := api_key self]> {["Content-Type" := content_type]}))) w
     ∧ sent (final (process_receipt_bytes self image_data content_type) w)
       = (sent w ++ [MkRequest (api_url self) (Some image_data) None
                       (<["X-API-Key" := api_key self]> {["Content-Type" := content_type]})
                       (timeout self)])%list).
Proof.
  unfold run, final, process_receipt_bytes. split; intros ->; [done|].
  split; [done|].
  pose proof (_send_request_final self (Some image_data) None
    (Some (<["X-API-Key" := api_key self]> {["Content-Type" := content_type]})) w) as Hsent.
  unfold final in Hsent. cbn [negb]. rewrite insert_empty, Hsent.
  unfold after_request, request_of, prepare_headers, has_key. simpl sent.
  by rewrite lookup_insert_eq.
Qed.

(** [application/pdf] is refused with nothing sent; [image/webp] is sent. *)
Lemma process_receipt_bytes_content_type_witness :
  run (process_receipt_bytes example_client [] "application/pdf")
    (example_world (Return bad_image_response))
  = (Raise (ValueError (PStr "Unsupported content type: application/pdf")),
     example_world (Return bad_image_response))
  ∧ sent (final (process_receipt_bytes example_client [] "image/webp")
            (example_world (Return bad_image_response)))
    = [MkRequest "https://receipts.example.com/extract" (Some []) None
         (<["X-API-Key" := "secret-key"]> {["Content-Type" := "image/webp"]}) 30].
Proof.
  split.
  - by apply (process_receipt_bytes_content_type example_client [] "application/pdf").
  - by apply (process_receipt_bytes_content_type example_client [] "image/webp").
Defined.

(** C7.  The headers of the request [_send_request] issues: the entry
    [X-API-Key] with the configured key is added exactly when the header map
    passed in has neither an [X-API-Key] nor an [Authorization] entry;
    otherwise the map is sent as it is; every entry under another name is
    the one passed in. *)
Theorem _send_request_api_key_header (self : ReceiptExtractorClient)
    (data : option bytes) (files : option (list (string * file_part)))
    (headers : option (gmap string string)) (w : World) :
  ∃ rq, sent (final (_send_request self data files headers) w) = (sent w ++ [rq])%list
    ∧ (has_key (default ∅ headers) "X-API-Key" = false
       ∧ has_key (default ∅ headers) "Authorization" = false
       ∧ req_headers rq = <["X-API-Key" := api_key self]> (default ∅ headers)
       ∨ (has_key (default ∅ headers) "X-API-Key" = true
          ∨ has_key (default ∅ headers) "Authorization" = true)
         ∧ req_headers rq = default ∅ headers)
    ∧ ∀ key, key ≠ "X-API-Key" → req_headers rq !! key = default ∅ headers !! key.
Proof.
  exists (request_of self data files headers).
  rewrite _send_request_final. split; [done|].
  unfold request_of, prepare_headers. simpl req_headers.
  destruct (has_key (default ∅ headers) "X-API-Key");
    destruct (has_key (default ∅ headers) "Authorization"); simpl;
    (split; [auto|]); intros key Hkey; by rewrite ?lookup_insert_ne.
Qed.

(** * Further properties *)

(** ** The validator *)

Lemma validate_schema_not_subscriptable (data : pyval) :
  isinstance_dict data = false → result validate_schema data ≠ Return true.
Proof.
  intros Hdata. unfold result, validate_schema.
  rewrite run_bind. unfold load. cbv beta iota. rewrite run_bind.
  destruct (for_each required_fields _ data) as [[[]|e] s']; [|done].
  rewrite run_bind. by destruct data.
Qed.

(** X1.  [validate_schema] returns [True] exactly on a dict that has a
    string [merchant_name] and [datetime], a list [items] of dicts each with
    a string [name], an int-or-float [price] and an int [count], and
    int-or-float [sub_total], [vat], [service_charge] and [total]; every
    other input raises. *)
Theorem validate_schema_accepts_exactly (data : pyval) :
  result validate_schema data = Return true
  ↔ ∃ d, data = PDict d ∧ receipt_shape d.
Proof.
  split.
  - intros Hacc. destruct (isinstance_dict data) eqn:Hdict.
    + destruct data as [| | | | | |d]; try done.
      exists d. split; [done|]. by apply validate_schema_accepts.
    + by apply validate_schema_not_subscriptable in Hdict.
  - intros (d & -> & Hshape). by apply validate_schema_accepts.
Qed.

Lemma spec_constraints_agree (d d' : gmap string pyval) :
  (∀ field, field ∈ required_fields → d !! field = d' !! field) →
  spec_constraints (PDict d) = spec_constraints (PDict d').
Proof.
  intros Hagree.
  assert (d !! "merchant_name" = d' !! "merchant_name") as Hmn
    by (apply Hagree; unfold required_fields; set_solver).
  assert (d !! "datetime" = d' !! "datetime") as Hdt
    by (apply Hagree; unfold required_fields; set_solver).
  assert (d !! "items" = d' !! "items") as Hit
    by (apply Hagree; unfold required_fields; set_solver).
  assert (d !! "sub_total" = d' !! "sub_total") as Hst
    by (apply Hagree; unfold required_fields; set_solver).
  assert (d !! "vat" = d' !! "vat") as Hva
    by (apply Hagree; unfold required_fields; set_solver).
  assert (d !! "service_charge" = d' !! "service_charge") as Hsc
    by (apply Hagree; unfold required_fields; set_solver).
  assert (d !! "total" = d' !! "total") as Hto
    by (apply Hagree; unfold required_fields; set_solver).
  unfold spec_constraints, spec_presence_constraints, spec_items_constraint,
    spec_items_constraints, spec_numeric_constraints, spec_string_constraints,
    spec_has_field, field_is, required_fields, numeric_fields, map.
  by rewrite Hmn, Hdt, Hit, Hst, Hva, Hsc, Hto.
Qed.

(** X2.  The outcome of [validate_schema] on a dict depends on the seven
    required fields only: two dicts that agree on them get the same outcome,
    so fields under other names are neither required nor refused. *)
Theorem validate_schema_ignores_other_fields (d d' : gmap string pyval) :
  (∀ field, field ∈ required_fields → d !! field = d' !! field) →
  result validate_schema (PDict d) = result validate_schema (PDict d').
Proof.
  intros Hagree. rewrite !validate_schema_result. unfold spec_validate.
  by rewrite (spec_constraints_agree d d' Hagree).
Qed.

(** The receipt of the example with a [currency] field added; and a receipt
    that lacks [total], with and without that field. *)
Lemma validate_schema_ignores_other_fields_witness :
  result validate_schema (PDict (<["currency" := PStr "THB"]> example_receipt))
  = Return true
  ∧ result validate_schema
      (PDict (<["currency" := PStr "THB"]> (delete "total" example_receipt)))
    = Raise (ValueError (PStr "Missing required field: total")).
Proof.
  split.
  - rewrite (validate_schema_ignores_other_fields
               (<["currency" := PStr "THB"]> example_receipt) example_receipt).
    + by vm_compute.
    + intros field Hfield. apply lookup_insert_ne. intros Heq.
      apply list_elem_of_In in Hfield. simpl in Hfield.
      rewrite <- Heq in Hfield. intuition discriminate.
  - rewrite (validate_schema_ignores_other_fields
               (<["currency" := PStr "THB"]> (delete "total" example_receipt))
               (delete "total" example_receipt)).
    + by vm_compute.
    + intros field Hfield. apply lookup_insert_ne. intros Heq.
      apply list_elem_of_In in Hfield. simpl in Hfield.
      rewrite <- Heq in Hfield. intuition discriminate.
Defined.

Lemma imap_insert_same {A B} (f : nat → A → B) (l : list A) (i : nat) (x x' : A) :
  l !! i = Some x → f i x' = f i x → imap f (<[i := x']> l) = imap f l.
Proof.
  intros Hi Hf. apply list_eq. intros j. rewrite !list_lookup_imap.
  destruct (decide (i = j)) as [<-|Hne].
  - rewrite list_lookup_insert_eq by (by eapply lookup_lt_Some).
    rewrite Hi. simpl. by rewrite Hf.
  - by rewrite list_lookup_insert_ne.
Qed.

(** X3.  Inside an item only [name], [price] and [count] are looked at:
    setting any other field of an item to any value leaves the outcome of
    [validate_schema] as it was. *)
Theorem validate_schema_ignores_other_item_fields (d : gmap string pyval)
    (l : list pyval) (i : nat) (m : gmap string pyval) (key : string) (v : pyval) :
  d !! "items" = Some (PList l) → l !! i = Some (PDict m) →
  key ∉ ["name"; "price"; "count"] →
  result validate_schema (with_item_field d l i m key v)
  = result validate_schema (PDict d).
Proof.
  intros Hitems Hi Hkey.
  apply not_elem_of_cons in Hkey as [Hname Hkey].
  apply not_elem_of_cons in Hkey as [Hprice Hkey].
  apply not_elem_of_cons in Hkey as [Hcount _].
  unfold with_item_field. rewrite !validate_schema_result. unfold spec_validate.
  f_equal. f_equal.
  unfold spec_constraints, spec_presence_constraints, spec_items_constraint,
    spec_items_constraints, spec_numeric_constraints, spec_string_constraints,
    spec_has_field, field_is, required_fields, numeric_fields, map.
  rewrite lookup_insert_eq, !lookup_insert_ne, Hitems by done.
  rewrite (imap_insert_same spec_item_constraints l i (PDict m)); [done..|].
  unfold spec_item_constraints, spec_has_field, field_is.
  by rewrite !lookup_insert_ne.
Qed.

(** The item of the example with a [sku] field added. *)
Lemma validate_schema_ignores_other_item_fields_witness :
  result validate_schema
    (with_item_field example_receipt [PDict example_item] 0 example_item
       "sku" (PInt 8850))
  = Return true.
Proof.
  rewrite (validate_schema_ignores_other_item_fields example_receipt
             [PDict example_item] 0 example_item "sku" (PInt 8850));
    [by vm_compute | reflexivity | reflexivity |].
  intros Hin. apply list_elem_of_In in Hin. simpl in Hin. intuition discriminate.
Defined.

Lemma receipt_shape_set_string (d : gmap string pyval) (field : string) (v : pyval) :
  receipt_shape d → field ∈ ["merchant_name"; "datetime"] → isinstance_str v = true →
  receipt_shape (<[field := v]> d).
Proof.
  intros (mn & dt & l & st & va & sc & to & Hmn & Hmns & Hdt & Hdts & Hit & Hl
          & Hst & Hsts & Hva & Hvas & Hsc & Hscs & Hto & Htos) Hfield Hv.
  apply elem_of_cons in Hfield as [->|Hfield].
  { exists v, dt, l, st, va, sc, to.
    by rewrite lookup_insert_eq, !lookup_insert_ne. }
  apply elem_of_cons in Hfield as [->|Hfield]; [|by apply elem_of_nil in Hfield].
  exists mn, v, l, st, va, sc, to.
  by rewrite lookup_insert_eq, !lookup_insert_ne.
Qed.

(** X4.  The validator checks types, not values: in an accepted receipt
    [merchant_name] and [datetime] can be replaced by any string (the empty
    one too, no date format is checked), and each of the four monetary
    fields by any int or any float (negative, not-a-number), and the receipt
    is still accepted; the totals need not add up. *)
Theorem validate_schema_checks_types_only (d : gmap string pyval) :
  result validate_schema (PDict d) = Return true →
  (∀ field s, field ∈ ["merchant_name"; "datetime"] →
     result validate_schema (PDict (<[field := PStr s]> d)) = Return true)
  ∧ (∀ field z, field ∈ numeric_fields →
       result validate_schema (PDict (<[field := PInt z]> d)) = Return true)
  ∧ (∀ field f, field ∈ numeric_fields →
       result validate_schema (PDict (<[field := PFloat f]> d)) = Return true).
Proof.
  intros Hd%validate_schema_accepts. repeat split.
  - intros field s Hfield. by apply validate_schema_accepts, receipt_shape_set_string.
  - intros field z Hfield. by apply validate_schema_accepts, receipt_shape_set_numeric.
  - intros field f Hfield. by apply validate_schema_accepts, receipt_shape_set_numeric.
Qed.

(** The receipt of the example with an empty [datetime], with a negative
    [total] and with not-a-number as [vat]. *)
Lemma validate_schema_checks_types_only_witness :
  result validate_schema (PDict example_receipt) = Return true
  ∧ result validate_schema (PDict (<["datetime" := PStr ""]> example_receipt))
    = Return true
  ∧ result validate_schema (PDict (<["total" := PInt (-5)]> example_receipt))
    = Return true
  ∧ result validate_schema (PDict (<["vat" := PFloat nan]> example_receipt))
    = Return true.
Proof.
  assert (result validate_schema (PDict example_receipt) = Return true) as Hd
    by (vm_compute; reflexivity).
  destruct (validate_schema_checks_types_only example_receipt Hd)
    as (Hstr & Hint & Hfloat).
  split; [exact Hd|]. split; [|split].
  - apply Hstr. apply list_elem_of_In. simpl. auto.
  - apply Hint. apply list_elem_of_In. simpl. auto.
  - apply Hfloat. apply list_elem_of_In. simpl. auto.
Defined.

Lemma validate_schema_after_items (d : gmap string pyval) (l : list pyval) :
  spec_first_missing (PDict d) = None → d !! "items" = Some (PList l) →
  Forall item_shape l →
  result validate_schema (PDict d) =
  match spec_first_violation
          (spec_numeric_constraints (PDict d) ++ spec_string_constraints (PDict d)) with
  | Some c => Raise (ValueError (PStr (message c)))
  | None => Return true
  end.
Proof.
  intros Hmiss Hitems Hl. rewrite validate_schema_result.
  unfold spec_validate, spec_constraints. rewrite first_violation_app.
  unfold spec_presence_constraints at 1. rewrite first_violation_map.
  change (find _ required_fields) with (spec_first_missing (PDict d)).
  rewrite Hmiss. simpl fmap. rewrite first_violation_app.
  unfold spec_items_constraint, spec_items_constraints, field_is at 1.
  rewrite Hitems. simpl spec_first_violation at 1.
  rewrite first_violation_app.
  replace (spec_first_violation (concat (imap spec_item_constraints l)))
    with (@None constraint); [done|].
  symmetry. apply first_violation_None.
  rewrite items_constraints_forallb. by apply items_ok_shape.
Qed.

Lemma set_field_none_missing (d : gmap string pyval) (field : string) (v : pyval) :
  receipt_shape d → spec_first_missing (PDict (<[field := v]> d)) = None.
Proof.
  intros (mn & dt & l & st & va & sc & to & Hmn & _ & Hdt & _ & Hit & _
          & Hst & _ & Hva & _ & Hsc & _ & Hto & _).
  unfold spec_first_missing, spec_has_field, field_is, required_fields, find.
  rewrite !lookup_insert. repeat case_decide; simpl;
    by rewrite ?Hmn, ?Hdt, ?Hit, ?Hst, ?Hva, ?Hsc, ?Hto.
Qed.

(** X5.  A field that is present with a value of the wrong type is reported
    as a type error under its own name, not as missing: in an accepted
    receipt, a monetary field set to anything but an int or a float (a
    numeric string, null, a list) fails with "The '<field>' field must be a
    number", and [merchant_name] or [datetime] set to anything but a string
    fails with "The '<field>' field must be a string". *)
Theorem validate_schema_rejects_wrong_type (d : gmap string pyval) (v : pyval) :
  result validate_schema (PDict d) = Return true →
  (∀ field, field ∈ numeric_fields → isinstance_int_float v = false →
     result validate_schema (PDict (<[field := v]> d))
     = Raise (ValueError (PStr ("The '" +:+ field +:+ "' field must be a number"))))
  ∧ (∀ field, field ∈ ["merchant_name"; "datetime"] → isinstance_str v = false →
       result validate_schema (PDict (<[field := v]> d))
       = Raise (ValueError (PStr ("The '" +:+ field +:+ "' field must be a string")))).
Proof.
  intros Hshape%validate_schema_accepts.
  pose proof Hshape as (mn & dt & l & st & va & sc & to & Hmn & Hmns & Hdt & Hdts
    & Hit & Hl & Hst & Hsts & Hva & Hvas & Hsc & Hscs & Hto & Htos).
  split; intros field Hfield Hv.
  - rewrite (validate_schema_after_items _ l);
      [|by apply set_field_none_missing| |done].
    2: { rewrite lookup_insert_ne; [done|]. intros ->.
         apply list_elem_of_In in Hfield. simpl in Hfield. intuition discriminate. }
    unfold spec_numeric_constraints, spec_string_constraints, field_is,
      numeric_fields, map, app, spec_first_violation, find.
    apply list_elem_of_In in Hfield. simpl in Hfield.
    destruct Hfield as [<-|[<-|[<-|[<-|[]]]]];
      rewrite ?lookup_insert_eq, ?lookup_insert_ne by done;
      by rewrite ?Hst, ?Hva, ?Hsc, ?Hto, ?Hsts, ?Hvas, ?Hscs, ?Hv.
  - rewrite (validate_schema_after_items _ l);
      [|by apply set_field_none_missing| |done].
    2: { rewrite lookup_insert_ne; [done|]. intros ->.
         apply list_elem_of_In in Hfield. simpl in Hfield. intuition discriminate. }
    unfold spec_numeric_constraints, spec_string_constraints, field_is,
      numeric_fields, map, app, spec_first_violation, find.
    apply list_elem_of_In in Hfield. simpl in Hfield.
    destruct Hfield as [<-|[<-|[]]];
      rewrite ?lookup_insert_eq, ?lookup_insert_ne by done;
      by rewrite ?Hst, ?Hva, ?Hsc, ?Hto, ?Hsts, ?Hvas, ?Hscs, ?Htos, ?Hmn, ?Hdt,
           ?Hmns, ?Hv.
Qed.

(** The receipt of the example with the string ["146.00"] as [total] and
    with null as [datetime]. *)
Lemma validate_schema_rejects_wrong_type_witness :
  result validate_schema (PDict example_receipt) = Return true
  ∧ result validate_schema (PDict (<["total" := PStr "146.00"]> example_receipt))
    = Raise (ValueError (PStr "The 'total' field must be a number"))
  ∧ result validate_schema (PDict (<["datetime" := PNone]> example_receipt))
    = Raise (ValueError (PStr "The 'datetime' field must be a string")).
Proof.
  assert (result validate_schema (PDict example_receipt) = Return true) as Hd
    by (vm_compute; reflexivity).
  split; [exact Hd|]. split.
  - destruct (validate_schema_rejects_wrong_type example_receipt (PStr "146.00") Hd)
      as [Hnum _].
    apply (Hnum "total"); [|reflexivity]. apply list_elem_of_In. simpl. auto.
  - destruct (validate_schema_rejects_wrong_type example_receipt PNone Hd)
      as [_ Hstr].
    apply (Hstr "datetime"); [|reflexivity]. apply list_elem_of_In. simpl. auto.
Defined.

(** ** The request pipeline, further *)

Lemma _send_request_transport_raises (self : ReceiptExtractorClient)
    (data : option bytes) (files : option (list (string * file_part)))
    (headers : option (gmap string string)) (w : World) (e : exn) :
  endpoint w (request_of self data files headers) = Raise e →
  result (_send_request self data files headers) w =
  if isinstance_Timeout e then
    Raise (ValueError (PStr ("Request timed out after " +:+ pretty (timeout self)
                               +:+ " seconds")))
  else if isinstance_RequestException e then
    Raise (ValueError (PStr ("Network error: " +:+ exn_str e)))
  else Raise e.
Proof.
  intros He. unfold result, _send_request, try_except, requests_post.
  rewrite run_bind. fold (request_of self data files headers). rewrite He.
  destruct (isinstance_Timeout e); [done|].
  by destruct (isinstance_RequestException e).
Qed.

(** X6.  When the transport reports a timeout — [Timeout], [ConnectTimeout]
    (also a [ConnectionError]) or [ReadTimeout] — [_send_request] raises
    [ValueError] with the message "Request timed out after <timeout>
    seconds", where <timeout> is the configured value; the text of the
    transport's exception is dropped. *)
Theorem _send_request_timeout (self : ReceiptExtractorClient)
    (data : option bytes) (files : option (list (string * file_part)))
    (headers : option (gmap string string)) (w : World)
    (cls : requests_exception) (msg : string) :
  endpoint w (request_of self data files headers) = Raise (RequestException cls msg) →
  cls ∈ [Timeout; ConnectTimeout; ReadTimeout] →
  result (_send_request self data files headers) w
  = Raise (ValueError (PStr ("Request timed out after " +:+ pretty (timeout self)
                               +:+ " seconds"))).
Proof.
  intros He Hcls. rewrite (_send_request_transport_raises _ _ _ _ _ _ He).
  apply list_elem_of_In in Hcls. simpl in Hcls.
  by destruct Hcls as [<-|[<-|[<-|[]]]].
Qed.

(** A connect timeout under the configured 30 seconds. *)
Lemma _send_request_timeout_witness :
  result (_send_request example_client (Some []) None None)
    (example_world (Raise (RequestException ConnectTimeout "connect timed out")))
  = Raise (ValueError (PStr "Request timed out after 30 seconds")).
Proof.
  apply (_send_request_timeout example_client (Some []) None None
           (example_world (Raise (RequestException ConnectTimeout "connect timed out")))
           ConnectTimeout "connect timed out" eq_refl).
  apply list_elem_of_In. simpl. auto.
Defined.

(** X7.  Any other failure of the [requests] library (refused connection,
    TLS failure, too many redirects) leaves [_send_request] as a
    [ValueError] "Network error: <text of the failure>"; an exception that
    is not a [RequestException] is not caught and leaves as it is. *)
Theorem _send_request_network_error (self : ReceiptExtractorClient)
    (data : option bytes) (files : option (list (string * file_part)))
    (headers : option (gmap string string)) (w : World) (e : exn) :
  endpoint w (request_of self data files headers) = Raise e →
  (∀ cls msg, e = RequestException cls msg →
     cls ∉ [Timeout; ConnectTimeout; ReadTimeout] →
     result (_send_request self data files headers) w
     = Raise (ValueError (PStr ("Network error: " +:+ msg))))
  ∧ (isinstance_RequestException e = false →
     result (_send_request self data files headers) w = Raise e).
Proof.
  intros He. rewrite (_send_request_transport_raises _ _ _ _ _ _ He). split.
  - intros cls msg -> Hcls.
    destruct cls; try done; exfalso; apply Hcls, list_elem_of_In; simpl; auto.
  - intros Hreq. destruct e; try done.
Qed.

(** A TLS failure, and a [KeyError] out of the transport. *)
Lemma _send_request_network_error_witness :
  result (_send_request example_client (Some []) None None)
    (example_world (Raise (RequestException SSLError "certificate verify failed")))
  = Raise (ValueError (PStr "Network error: certificate verify failed"))
  ∧ result (_send_request example_client (Some []) None None)
      (example_world (Raise (KeyError "proxy")))
    = Raise (KeyError "proxy").
Proof.
  split.
  - destruct (_send_request_network_error example_client (Some []) None None
                (example_world (Raise (RequestException SSLError
                                         "certificate verify failed")))
                _ eq_refl) as [Hnet _].
    apply (Hnet SSLError "certificate verify failed" eq_refl).
    intros Hin. apply list_elem_of_In in Hin. simpl in Hin. intuition discriminate.
  - destruct (_send_request_network_error example_client (Some []) None None
                (example_world (Raise (KeyError "proxy"))) _ eq_refl) as [_ Hother].
    by apply Hother.
Defined.

(** X8.  [_send_request] does not validate: on a success status whose body
    parses, the parsed body is returned as it is, whatever its shape, also
    one that [validate_schema] rejects. *)
Theorem _send_request_returns_body_unvalidated (self : ReceiptExtractorClient)
    (data : option bytes) (files : option (list (string * file_part)))
    (headers : option (gmap string string)) (w : World) (r : Response) (v : pyval) :
  endpoint w (request_of self data files headers) = Return r →
  ok r = true → body_json r = inr v →
  result (_send_request self data files headers) w = Return v.
Proof.
  intros Hr Hok Hv.
  by rewrite (_send_request_response self data files headers w r Hr), Hok, Hv.
Qed.

(** Status 200 with the body [{}]: returned, and refused by the validator. *)
Lemma _send_request_returns_body_unvalidated_witness :
  result (_send_request example_client (Some []) None None)
    (example_world (Return (MkResponse 200 "{}" (inr (PDict ∅)))))
  = Return (PDict ∅)
  ∧ result validate_schema (PDict ∅)
    = Raise (ValueError (PStr "Missing required field: merchant_name")).
Proof.
  split; [|reflexivity].
  by apply (_send_request_returns_body_unvalidated example_client (Some []) None None
              (example_world (Return (MkResponse 200 "{}" (inr (PDict ∅)))))
              (MkResponse 200 "{}" (inr (PDict ∅)))).
Defined.

(** X9.  Every call of [_send_request] issues exactly one request, whether
    it returns or raises (no retry after a timeout or an error status): the
    request goes to the configured URL with the configured timeout and the
    data and files passed in, and the file system is left as it was. *)
Theorem _send_request_single_request (self : ReceiptExtractorClient)
    (data : option bytes) (files : option (list (string * file_part)))
    (headers : option (gmap string string)) (w : World) :
  ∃ rq, sent (final (_send_request self data files headers) w) = (sent w ++ [rq])%list
    ∧ req_url rq = api_url self ∧ req_timeout rq = timeout self
    ∧ req_data rq = data ∧ req_files rq = files
    ∧ fs (final (_send_request self data files headers) w) = fs w.
Proof.
  exists (request_of self data files headers). by rewrite _send_request_final.
Qed.

(** ** The entry points, further *)

Lemma content_type_map_values (ext ct : string) :
  content_type_map !! ext = Some ct →
  ct ∈ ["image/jpeg"; "image/png"; "image/gif"; "image/bmp"; "image/webp"; "image/heic"].
Proof.
  unfold content_type_map. intros Hct.
  apply elem_of_list_to_map_2, list_elem_of_In in Hct. simpl in Hct.
  apply list_elem_of_In. simpl.
  destruct Hct as [[= _ <-]|[[= _ <-]|[[= _ <-]|[[= _ <-]|[[= _ <-]|[[= _ <-]|[[= _ <-]|[]]]]]]]];
    auto 10.
Qed.

(** X10.  [process_receipt_file] never changes the file system, and it
    uploads exactly when the path is a regular file whose lower-cased
    extension is in the table: then one multipart request goes out whose
    part [image] carries the file's name, its whole content and one of the
    six image types of the table; in every other case (missing path,
    directory, unlisted extension) nothing is sent. *)
Theorem process_receipt_file_uploads_image (self : ReceiptExtractorClient)
    (image_path : Path) (w : World) :
  fs (final (process_receipt_file self image_path) w) = fs w
  ∧ match fs w !! path_str image_path,
          content_type_map !! str_lower (suffix image_path) with
    | Some (RegularFile content), Some ct =>
        ct ∈ ["image/jpeg"; "image/png"; "image/gif"; "image/bmp"; "image/webp";
              "image/heic"]
        ∧ sent (final (process_receipt_file self image_path) w)
          = (sent w ++ [MkRequest (api_url self) None
                          (Some [("image", FilePart (name image_path) content ct)])
                          {["X-API-Key" := api_key self]} (timeout self)])%list
    | _, _ => sent (final (process_receipt_file self image_path) w) = sent w
    end.
Proof.
  unfold final, process_receipt_file, exists_, has_key, read_file.
  rewrite run_bind.
  destruct (fs w !! path_str image_path) as [node|] eqn:Hfs; [|done].
  cbv beta iota. cbn [negb].
  destruct (content_type_map !! str_lower (suffix image_path)) as [ct|] eqn:Hct.
  2: { by destruct node. }
  pose proof (content_type_map_values _ _ Hct) as Hvalues.
  destruct ct as [|c ct]; [by apply content_type_map_nonempty in Hct|].
  rewrite run_bind, Hfs. destruct node as [content|]; [|done].
  pose proof (_send_request_final self None
    (Some [("image", FilePart (name image_path) content (String c ct))]) None w) as Hsent.
  unfold final in Hsent. by rewrite Hsent.
Qed.

(** X11.  A client can only be built with a non-empty API key, and a client
    so built sends that key: [__init__] raises on the empty key, and
    otherwise yields the client with the arguments as its fields, whose
    requests, when the caller passes no headers, carry [X-API-Key] with the
    non-empty key as their one header. *)
Theorem init_client_sends_key (url key : string) (seconds : Z) :
  (key = "" →
     init url key seconds
     = Raise (ValueError (PStr "API key is required for authentication")))
  ∧ (∀ self, init url key seconds = Return self →
       key ≠ "" ∧ self = MkClient url key seconds
       ∧ ∀ data files w,
           sent (final (_send_request self data files None) w)
           = (sent w ++ [MkRequest url data files {["X-API-Key" := key]} seconds])%list).
Proof.
  unfold init. split.
  - by intros ->.
  - intros self Hinit. destruct (String.eqb key "") eqn:Hkey; [done|].
    apply String.eqb_neq in Hkey. injection Hinit as <-.
    repeat split; [done|]. intros data files w.
    by rewrite _send_request_final.
Qed.

Lemma init_client_sends_key_witness :
  init "https://receipts.example.com/extract" "" 30
  = Raise (ValueError (PStr "API key is required for authentication"))
  ∧ init "https://receipts.example.com/extract" "secret-key" 30 = Return example_client
  ∧ sent (final (_send_request example_client (Some []) None None)
            (example_world (Return bad_image_response)))
    = [MkRequest "https://receipts.example.com/extract" (Some []) None
         {["X-API-Key" := "secret-key"]} 30].
Proof.
  split; [|split; [reflexivity|]].
  - by apply (init_client_sends_key "https://receipts.example.com/extract" "" 30).
  - destruct (init_client_sends_key "https://receipts.example.com/extract"
                "secret-key" 30) as [_ Hbuilt].
    destruct (Hbuilt example_client eq_refl) as (_ & _ & Hsent).
    apply (Hsent (Some []) None (example_world (Return bad_image_response))).
Defined.

Lemma raise_for_status_error (r : UrlResponse) :
  400 ≤ url_status_code r < 600 → raise_for_status r = Raise (url_http_error r).
Proof.
  intros [Hlo Hhi]. unfold raise_for_status.
  apply Z.leb_le in Hlo. apply Z.ltb_lt in Hhi. by rewrite Hlo, Hhi.
Qed.

Lemma raise_for_status_ok (r : UrlResponse) :
  ¬ (400 ≤ url_status_code r < 600) → raise_for_status r = Return tt.
Proof.
  intros Hout. unfold raise_for_status.
  destruct (400 <=? url_status_code r) eqn:Hlo; [|done].
  destruct (url_status_code r <? 600) eqn:Hhi; [|done].
  apply Z.leb_le in Hlo. apply Z.ltb_lt in Hhi. by destruct Hout.
Qed.

(** X12.  [process_receipt_url] fails before anything is uploaded, and
    leaves the world as it was, in three cases: the GET raises (the
    exception leaves as it is, a timeout too: it is not turned into the
    [ValueError] of the pipeline); the GET answers an error status (the
    [HTTPError] of [raise_for_status] leaves as it is); the answer's
    [Content-Type] does not start with [image/], a missing header counting
    as the empty type. *)
Theorem process_receipt_url_fails_before_upload
    (requests_get : string → Z → outcome UrlResponse)
    (self : ReceiptExtractorClient) (image_url : string) (w : World) :
  (∀ e, requests_get image_url (timeout self) = Raise e →
     run (process_receipt_url requests_get self image_url) w = (Raise e, w))
  ∧ (∀ r, requests_get image_url (timeout self) = Return r →
       400 ≤ url_status_code r < 600 →
       run (process_receipt_url requests_get self image_url) w
       = (Raise (url_http_error r), w))
  ∧ (∀ r, requests_get image_url (timeout self) = Return r →
       ¬ (400 ≤ url_status_code r < 600) →
       String.prefix "image/" (default "" (url_content_type r)) = false →
       run (process_receipt_url requests_get self image_url) w
       = (Raise (ValueError (PStr ("URL did not return an image (got "
                                     +:+ default "" (url_content_type r) +:+ ")"))), w)).
Proof.
  unfold run, process_receipt_url. repeat split.
  - intros e He. rewrite run_bind. unfold lift. by rewrite He.
  - intros r Hr Hstatus. rewrite run_bind. unfold lift at 1. rewrite Hr.
    rewrite run_bind. unfold lift. by rewrite raise_for_status_error.
  - intros r Hr Hstatus Hct. rewrite run_bind. unfold lift at 1. rewrite Hr.
    rewrite run_bind. unfold lift. rewrite raise_for_status_ok by done.
    cbv beta iota zeta. by rewrite Hct.
Qed.

(** X13.  When the GET answers a status outside 400..599 with a
    [Content-Type] that starts with [image/], [process_receipt_url] is the
    call of [_send_request] with the fetched body as data and the headers
    [Content-Type] (the type the GET declared) and [X-API-Key]: the check of
    [process_receipt_bytes] cannot fail again, and exactly one request is
    posted. *)
Theorem process_receipt_url_uploads
    (requests_get : string → Z → outcome UrlResponse)
    (self : ReceiptExtractorClient) (image_url : string) (w : World)
    (r : UrlResponse) (content_type : string) :
  requests_get image_url (timeout self) = Return r →
  ¬ (400 ≤ url_status_code r < 600) →
  url_content_type r = Some content_type →
  String.prefix "image/" content_type = true →
  run (process_receipt_url requests_get self image_url) w
  = run (_send_request self (Some (url_content r)) None
           (Some (<["X-API-Key" := api_key self]> {["Content-Type" := content_type]}))) w
  ∧ sent (final (process_receipt_url requests_get self image_url) w)
    = (sent w ++ [MkRequest (api_url self) (Some (url_content r)) None
                    (<["X-API-Key" := api_key self]> {["Content-Type" := content_type]})
                    (timeout self)])%list.
Proof.
  intros Hr Hstatus Hheader Hct.
  assert (process_receipt_url requests_get self image_url w
          = _send_request self (Some (url_content r)) None
              (Some (<["X-API-Key" := api_key self]>
                       {["Content-Type" := content_type]})) w) as Hsend.
  { unfold process_receipt_url. rewrite run_bind. unfold lift at 1. rewrite Hr.
    rewrite run_bind. unfold lift. rewrite raise_for_status_ok by done.
    cbv beta iota zeta. rewrite Hheader.
    change (default "" (Some content_type)) with content_type.
    unfold process_receipt_bytes. by rewrite !Hct. }
  unfold run, final. rewrite Hsend. split; [done|].
  pose proof (_send_request_final self (Some (url_content r)) None
    (Some (<["X-API-Key" := api_key self]> {["Content-Type" := content_type]})) w)
    as Hsent.
  unfold final in Hsent. rewrite Hsent.
  unfold after_request, request_of, prepare_headers, has_key. simpl sent.
  by rewrite lookup_insert_eq.
Qed.

(** An image fetched with status 200 and the type [image/jpeg]. *)
Lemma process_receipt_url_uploads_witness :
  sent (final (process_receipt_url
                 (λ _ _, Return (MkUrlResponse 200 (Some "image/jpeg") []
                                   (RequestException ConnectionError "")))
                 example_client "https://img.example.com/r.jpg")
          (example_world (Return bad_image_response)))
  = [MkRequest "https://receipts.example.com/extract" (Some []) None
       (<["X-API-Key" := "secret-key"]> {["Content-Type" := "image/jpeg"]}) 30].
Proof.
  refine (proj2 (process_receipt_url_uploads
                   (λ _ _, Return (MkUrlResponse 200 (Some "image/jpeg") []
                                     (RequestException ConnectionError "")))
                   example_client "https://img.example.com/r.jpg"
                   (example_world (Return bad_image_response))
                   (MkUrlResponse 200 (Some "image/jpeg") []
                      (RequestException ConnectionError ""))
                   "image/jpeg" eq_refl _ eq_refl eq_refl)).
  simpl. lia.
Defined.

(** A GET that times out, a 404, and a page served as [text/html]. *)
Lemma process_receipt_url_fails_before_upload_witness :
  run (process_receipt_url (λ _ _, Raise (RequestException ReadTimeout "read timed out"))
         example_client "https://img.example.com/r.jpg")
    (example_world (Return bad_image_response))
  = (Raise (RequestException ReadTimeout "read timed out"),
     example_world (Return bad_image_response))
  ∧ run (process_receipt_url
           (λ _ _, Return (MkUrlResponse 200 (Some "text/html") []
                             (RequestException ConnectionError "")))
           example_client "https://img.example.com/r.jpg")
      (example_world (Return bad_image_response))
    = (Raise (ValueError (PStr "URL did not return an image (got text/html)")),
       example_world (Return bad_image_response)).
Proof.
  split.
  - by apply (process_receipt_url_fails_before_upload
                (λ _ _, Raise (RequestException ReadTimeout "read timed out"))
                example_client "https://img.example.com/r.jpg").
  - destruct (process_receipt_url_fails_before_upload
                (λ _ _, Return (MkUrlResponse 200 (Some "text/html") []
                                  (RequestException ConnectionError "")))
                example_client "https://img.example.com/r.jpg"
                (example_world (Return bad_image_response))) as (_ & _ & Htype).
    apply (Htype (MkUrlResponse 200 (Some "text/html") []
                    (RequestException ConnectionError "")) eq_refl);
      [simpl; lia | reflexivity].
Defined.

(** ** Order among the items, and error statuses *)

Lemma set_items_keeps_none_missing (d : gmap string pyval) (l : list pyval) :
  spec_first_missing (PDict d) = None →
  spec_first_missing (PDict (<["items" := PList l]> d)) = None.
Proof.
  unfold spec_first_missing, spec_has_field, field_is, required_fields, find.
  rewrite lookup_insert_eq, !lookup_insert_ne by done.
  destruct (d !! "merchant_name"); [|done].
  destruct (d !! "datetime"); [|done].
  by destruct (d !! "items").
Qed.

Lemma item_not_shape_violation (i : nat) (x : pyval) :
  ¬ item_shape x →
  ∃ c, c ∈ spec_item_constraints i x ∧ holds c = false
       ∧ spec_first_violation (spec_item_constraints i x) = Some c.
Proof.
  intros Hx. unfold spec_first_violation.
  destruct (find (λ c, negb (holds c)) (spec_item_constraints i x)) as [c|] eqn:Hfind.
  - apply find_some in Hfind as [Hin Hc]. exists c.
    split; [by apply list_elem_of_In|]. split; [|done].
    by apply negb_true_iff.
  - exfalso. apply Hx, item_ok_shape. unfold item_ok.
    apply (first_violation_None (spec_item_constraints i x)) in Hfind.
    exact Hfind.
Qed.

(** X14.  Items are checked in index order and the first invalid one ends
    the validation: when all seven fields are present, the items before
    index [i] are valid and the item at [i] is not, the error is one of the
    seven item errors for index [i], and it is the same whatever items
    follow. *)
Theorem validate_schema_first_invalid_item (d : gmap string pyval)
    (before : list pyval) (x : pyval) (after after' : list pyval) :
  spec_first_missing (PDict d) = None →
  Forall item_shape before → ¬ item_shape x →
  (∃ c, c ∈ spec_item_constraints (length before) x
        ∧ result validate_schema (PDict (<["items" := PList (before ++ x :: after)]> d))
          = Raise (ValueError (PStr (message c))))
  ∧ result validate_schema (PDict (<["items" := PList (before ++ x :: after)]> d))
    = result validate_schema (PDict (<["items" := PList (before ++ x :: after')]> d)).
Proof.
  intros Hmiss Hbefore Hx.
  destruct (item_not_shape_violation (length before) x Hx) as (c & Hin & _ & Hc).
  assert (∀ rest,
    result validate_schema (PDict (<["items" := PList (before ++ x :: rest)]> d))
    = Raise (ValueError (PStr (message c)))) as Hresult.
  { intros rest.
    apply (validate_schema_item_violation _ (before ++ x :: rest)).
    - by apply set_items_keeps_none_missing.
    - apply lookup_insert_eq.
    - apply (items_first_violation_at _ (length before) x).
      + by rewrite list_lookup_middle.
      + by rewrite take_app_length.
      + done. }
  split; [exists c; by split|]. by rewrite !Hresult.
Qed.

(** A valid item, then a list where an item should be, then two different
    tails. *)
Lemma validate_schema_first_invalid_item_witness :
  result validate_schema
    (PDict (<["items" := PList [PDict example_item; PList []; PNone]]> example_receipt))
  = Raise (ValueError (PStr "Item at index 1 is not a dictionary"))
  ∧ result validate_schema
      (PDict (<["items" := PList [PDict example_item; PList []; PNone]]> example_receipt))
    = result validate_schema
        (PDict (<["items" := PList [PDict example_item; PList []]]> example_receipt)).
Proof.
  split; [by vm_compute|].
  refine (proj2 (validate_schema_first_invalid_item example_receipt
                   [PDict example_item] (PList []) [PNone] [] eq_refl _ _)).
  - apply Forall_cons_2; [|apply Forall_nil_2].
    apply item_ok_shape. by vm_compute.
  - intros Hshape%item_ok_shape. discriminate.
Defined.

(** X15.  On an error status (400..599) [_send_request] never returns a
    value: whatever the body is, a valid receipt included, the call
    raises. *)
Theorem _send_request_error_status_never_returns (self : ReceiptExtractorClient)
    (data : option bytes) (files : option (list (string * file_part)))
    (headers : option (gmap string string)) (w : World) (r : Response) :
  endpoint w (request_of self data files headers) = Return r →
  400 ≤ status_code r < 600 →
  ∃ e, result (_send_request self data files headers) w = Raise e.
Proof.
  intros Hr [Hlo Hhi].
  rewrite (_send_request_response self data files headers w r Hr).
  unfold ok. apply Z.leb_le in Hlo. apply Z.ltb_lt in Hhi. rewrite Hlo, Hhi.
  simpl. destruct (body_json r) as [err|[]]; eauto.
Qed.

(** Status 404 with the receipt of the example as body. *)
Lemma _send_request_error_status_never_returns_witness :
  ∃ e, result (_send_request example_client (Some []) None None)
         (example_world (Return (MkResponse 404 "" (inr (PDict example_receipt)))))
       = Raise e.
Proof.
  apply (_send_request_error_status_never_returns example_client (Some []) None None
           (example_world (Return (MkResponse 404 "" (inr (PDict example_receipt)))))
           (MkResponse 404 "" (inr (PDict example_receipt))) eq_refl).
  simpl. lia.
Defined.
